(** * anki-mcp: the AnkiConnect client and the MCP tool handlers

    A shallow embedding of [ankiconnect.go] and of the tool handlers of
    [main.go] (the full tool surface, with and without media-path
    resolution, and the reduced "simple" surface), followed by the
    properties of the specification that concern them.

    Conventions of the embedding.
    - A Go [string] is a [string] (a sequence of bytes); a [[]byte] is a
      [list Byte.byte]; [int] and [int64] are [Z].
    - A value held in an [interface{}] after JSON decoding is an [Any].
      [float64] is kept abstract ([Float64]): the code only ever converts
      it with [int64(f)].
    - An [error] is its message ([GoError]); a Go pair [(T, error)] is a
      [Fallible T]; a lone [error] is an [option GoError] ([None] is nil).
    - The remote add-on is an oracle ([World]); every call of [invoke] is
      appended to a trace, so that "no call was made" can be stated.
    - The file system is a fixed snapshot ([os_Stat], [os_ReadFile]). *)

From Stdlib Require Import ZArith String Ascii List DecimalString Lia.
From stdpp Require Import gmap strings list fin_maps.

Set Warnings "-register-all".
Local Open Scope Z_scope.

(** ** Go standard library functions used by the program *)

Module Strings.

(** [strings.HasPrefix(s, prefix)] *)
Definition HasPrefix (s prefix : string) : bool := String.prefix prefix s.

(** [strings.Contains(s, substr)] *)
Fixpoint Contains (s substr : string) : bool :=
  String.prefix substr s ||
  match s with
  | EmptyString => false
  | String _ s' => Contains s' substr
  end.

Definition push (c : ascii) (parts : list string) : list string :=
  match parts with
  | [] => [String c EmptyString]
  | h :: t => String c h :: t
  end.

(** The parts of [s] from the current position on; [skip] counts the
    bytes of a separator occurrence that are still to be consumed. *)
Fixpoint splitFrom (sep s : string) (skip : nat) : list string :=
  match s with
  | EmptyString => [EmptyString]
  | String c s' =>
      match skip with
      | S k => splitFrom sep s' k
      | O =>
          if String.prefix sep s
          then EmptyString :: splitFrom sep s' (String.length sep - 1)
          else push c (splitFrom sep s' 0)
      end
  end.

(** [strings.Split(s, sep)] for a non-empty separator (the program only
    splits on [","], ["/"] and a backslash). *)
Definition Split (s sep : string) : list string := splitFrom sep s 0.

(** [strings.Join(elems, sep)] *)
Fixpoint Join (elems : list string) (sep : string) : string :=
  match elems with
  | [] => EmptyString
  | [x] => x
  | x :: rest => x +:+ sep +:+ Join rest sep
  end.

End Strings.

Module Strconv.

Definition maxInt : Z := 2 ^ 63 - 1.
Definition minInt : Z := - 2 ^ 63.

Definition digit (c : ascii) : option Z :=
  let n := Z.of_nat (nat_of_ascii c) in
  if (48 <=? n) && (n <=? 57) then Some (n - 48) else None.

Fixpoint digits (s : string) (acc : Z) : option Z :=
  match s with
  | EmptyString => Some acc
  | String c s' =>
      match digit c with
      | Some d => digits s' (10 * acc + d)
      | None => None
      end
  end.

(** [strconv.Atoi(s)] on a 64-bit platform: an optional sign followed by
    one or more decimal digits, in the range of [int].  [None] stands
    for a non-nil error (the program only tests [err == nil]). *)
Definition Atoi (s : string) : option Z :=
  let '(neg, ds) :=
    match s with
    | String "-" r => (true, r)
    | String "+" r => (false, r)
    | _ => (false, s)
    end in
  match ds with
  | EmptyString => None
  | _ =>
      match digits ds 0 with
      | None => None
      | Some n =>
          let v := if neg then - n else n in
          if (minInt <=? v) && (v <=? maxInt) then Some v else None
      end
  end.

End Strconv.

Module Fmt.

(** The verb [%d] applied to an integer. *)
Definition d (n : Z) : string := NilZero.string_of_int (Z.to_int n).

End Fmt.

(** ** Values, errors and results *)

Definition GoError : Type := string.

Inductive Fallible (A : Type) : Type :=
| Ok (a : A)
| Fail (err : GoError).
Arguments Ok {A} a.
Arguments Fail {A} err.

(** [fmt.Errorf(prefix + "%w", err)] *)
Definition wrap (prefix : string) (err : GoError) : GoError := prefix +:+ err.

Class Float64 : Type := {
  float64 : Type;
  (** the conversion [int64(f)] *)
  int64_of_float64 : float64 -> Z
}.

Section DataModel.
Context `{Float64}.

(** What [encoding/json] stores in an [interface{}]. *)
Inductive Any : Type :=
| VNil
| VBool (b : bool)
| VFloat64 (f : float64)
| VString (s : string)
| VSlice (l : list Any)
| VMap (m : gmap string Any).

(** The comma-ok type assertions [v.(string)], [v.([]interface{})] and
    [v.(map[string]interface{})] on the value found under a key; a
    missing key yields the nil interface, on which every assertion
    fails. *)
Definition asString (v : option Any) : option string :=
  match v with Some (VString s) => Some s | _ => None end.

Definition asSlice (v : option Any) : option (list Any) :=
  match v with Some (VSlice l) => Some l | _ => None end.

Definition asMap (v : option Any) : option (gmap string Any) :=
  match v with Some (VMap m) => Some m | _ => None end.

(** [MediaFile]; its [Fields] is named [MediaFields] here. *)
Record MediaFile : Type := {
  Path : string;
  Filename : string;
  MediaFields : list string;
  Data : string
}.

Record Note : Type := {
  DeckName : string;
  ModelName : string;
  Fields : gmap string string;
  Tags : list string;
  Audio : list MediaFile;
  Picture : list MediaFile;
  Video : list MediaFile;
  Options : gmap string Any
}.

(** The Go values the wrappers pass as [params]. *)
Inductive Param : Type :=
| PNil
| PBool (b : bool)
| PString (s : string)
| PInt64 (n : Z)
| PStrings (l : list string)
| PInt64s (l : list Z)
| PStringMap (m : gmap string string)
| PNote (n : Note)
| PMap (m : gmap string Param).

Record ankiRequest : Type := {
  Action : string;
  ReqVersion : Z;
  Params : Param
}.

Record ankiResponse : Type := {
  Result : Any;
  Error : string
}.

Record AnkiConnect : Type := {
  URL : string;
  Version : Z
}.

(** One call of [invoke]: the endpoint and the request posted to it. *)
Definition Call : Type := (string * ankiRequest)%type.
Definition Trace : Type := list Call.

(** What happens to a request on its way to the add-on and back: the
    first step of [invoke] that fails, or the decoded envelope. *)
Inductive Wire : Type :=
| MarshalFailed (err : GoError)
| PostFailed (err : GoError)
| ReadFailed (err : GoError)
| UnmarshalFailed (err : GoError)
| Decoded (resp : ankiResponse).

End DataModel.

(** The environment of the program: the add-on behind the endpoint, which
    may answer according to the calls made so far, the file system and
    [encoding/base64]. *)
Class World `{Float64} : Type := {
  remote : Trace -> Call -> Wire;
  os_Stat : string -> bool;
  os_ReadFile : string -> Fallible (list Byte.byte);
  base64_EncodeToString : list Byte.byte -> string;
  base64_DecodeString : string -> Fallible (list Byte.byte)
}.

(** ** Calls that leave a trace *)

Section IO.
Context `{World}.

Definition IO (A : Type) : Type := Trace -> A * Trace.

Definition ret {A} (a : A) : IO A := fun tr => (a, tr).

Definition bind {A B} (m : IO A) (k : A -> IO B) : IO B :=
  fun tr => let '(a, tr') := m tr in k a tr'.

(** Send one request: the add-on answers, the call is recorded. *)
Definition roundTrip (c : Call) : IO Wire :=
  fun tr => (remote tr c, tr ++ [c]).

End IO.

Notation "'let!' x ':=' m 'in' k" := (bind m (fun x => k))
  (at level 10, x name, m at level 100, k at level 200).

(** ** ankiconnect.go: the RPC client *)

Section Client.
Context `{World}.

Definition defaultAnkiConnectURL : string := "http://localhost:8765".
Definition ankiConnectVersion : Z := 6.

Definition NewAnkiConnect : AnkiConnect :=
  {| URL := defaultAnkiConnectURL; Version := ankiConnectVersion |}.

Definition NewAnkiConnectWithURL (url : string) : AnkiConnect :=
  {| URL := url; Version := Version NewAnkiConnect |}.

(** [invoke]: build the request, send it, and unwrap the envelope. *)
Definition invoke (ac : AnkiConnect) (action : string) (params : Param)
  : IO (Fallible Any) :=
  let req := {| Action := action; ReqVersion := Version ac; Params := params |} in
  let! w := roundTrip (URL ac, req) in
  ret match w with
      | MarshalFailed err => Fail (wrap "failed to marshal request: " err)
      | PostFailed err => Fail (wrap "failed to connect to AnkiConnect: " err)
      | ReadFailed err => Fail (wrap "failed to read response: " err)
      | UnmarshalFailed err => Fail (wrap "failed to unmarshal response: " err)
      | Decoded result =>
          if String.eqb (Error result) EmptyString
          then Ok (Result result)
          else Fail ("AnkiConnect error: " +:+ Error result)
      end.

(** A wrapper that discards the result and keeps the error. *)
Definition errorOf {A} (r : Fallible A) : option GoError :=
  match r with Ok _ => None | Fail err => Some err end.

Definition Ping (ac : AnkiConnect) : IO (option GoError) :=
  let! r := invoke ac "version" PNil in ret (errorOf r).

(** The loop [for i, name := range names { out[i], ok = name.(string) ... }]
    shared by the wrappers that expect a list of strings. *)
Fixpoint stringsOf (msg : GoError) (names : list Any) : Fallible (list string) :=
  match names with
  | [] => Ok []
  | VString s :: rest =>
      match stringsOf msg rest with
      | Ok out => Ok (s :: out)
      | Fail err => Fail err
      end
  | _ :: _ => Fail msg
  end.

Definition narrowStrings (msg : GoError) (r : Fallible Any) : Fallible (list string) :=
  match r with
  | Fail err => Fail err
  | Ok (VSlice names) => stringsOf msg names
  | Ok _ => Fail "unexpected response type"
  end.

Definition GetDeckNames (ac : AnkiConnect) : IO (Fallible (list string)) :=
  let! r := invoke ac "deckNames" PNil in
  ret (narrowStrings "unexpected deck name type" r).

Definition CreateDeck (ac : AnkiConnect) (name : string) : IO (option GoError) :=
  let params := PStringMap {[ "deck" := name ]} in
  let! r := invoke ac "createDeck" params in ret (errorOf r).

Definition DeleteDeck (ac : AnkiConnect) (name : string) : IO (option GoError) :=
  let params := PMap {[ "decks" := PStrings [name]; "cardsToo" := PBool true ]} in
  let! r := invoke ac "deleteDecks" params in ret (errorOf r).

Definition AddNote (ac : AnkiConnect) (note : Note) : IO (Fallible Z) :=
  let params := PMap {[ "note" := PNote note ]} in
  let! r := invoke ac "addNote" params in
  ret match r with
      | Fail err => Fail err
      | Ok (VFloat64 id) => Ok (int64_of_float64 id)
      | Ok _ => Fail "unexpected note ID type"
      end.

Fixpoint int64sOf (ids : list Any) : Fallible (list Z) :=
  match ids with
  | [] => Ok []
  | VFloat64 fid :: rest =>
      match int64sOf rest with
      | Ok out => Ok (int64_of_float64 fid :: out)
      | Fail err => Fail err
      end
  | _ :: _ => Fail "unexpected note ID type"
  end.

Definition FindNotes (ac : AnkiConnect) (query : string) : IO (Fallible (list Z)) :=
  let params := PStringMap {[ "query" := query ]} in
  let! r := invoke ac "findNotes" params in
  ret match r with
      | Fail err => Fail err
      | Ok (VSlice ids) => int64sOf ids
      | Ok _ => Fail "unexpected response type"
      end.

Definition UpdateNoteFields (ac : AnkiConnect) (noteID : Z)
    (fields : gmap string string) : IO (option GoError) :=
  let params :=
    PMap {[ "note" := PMap {[ "id" := PInt64 noteID; "fields" := PStringMap fields ]} ]} in
  let! r := invoke ac "updateNoteFields" params in ret (errorOf r).

Definition StoreMediaFile (ac : AnkiConnect) (filename : string)
    (data : list Byte.byte) : IO (option GoError) :=
  let encodedData := base64_EncodeToString data in
  let params := PMap {[ "filename" := PString filename; "data" := PString encodedData ]} in
  let! r := invoke ac "storeMediaFile" params in ret (errorOf r).

Definition Sync (ac : AnkiConnect) : IO (option GoError) :=
  let! r := invoke ac "sync" PNil in ret (errorOf r).

Fixpoint mapsOf (notes : list Any) : Fallible (list (gmap string Any)) :=
  match notes with
  | [] => Ok []
  | VMap noteMap :: rest =>
      match mapsOf rest with
      | Ok out => Ok (noteMap :: out)
      | Fail err => Fail err
      end
  | _ :: _ => Fail "unexpected note type"
  end.

Definition GetNotesInfo (ac : AnkiConnect) (noteIDs : list Z)
  : IO (Fallible (list (gmap string Any))) :=
  let params := PMap {[ "notes" := PInt64s noteIDs ]} in
  let! r := invoke ac "notesInfo" params in
  ret match r with
      | Fail err => Fail err
      | Ok (VSlice notes) => mapsOf notes
      | Ok _ => Fail "unexpected response type"
      end.

Definition GetModelNames (ac : AnkiConnect) : IO (Fallible (list string)) :=
  let! r := invoke ac "modelNames" PNil in
  ret (narrowStrings "unexpected model name type" r).

Definition GetModelFieldNames (ac : AnkiConnect) (modelName : string)
  : IO (Fallible (list string)) :=
  let params := PStringMap {[ "modelName" := modelName ]} in
  let! r := invoke ac "modelFieldNames" params in
  ret (narrowStrings "unexpected field name type" r).

End Client.

(** ** main.go: the tool handlers

    The handlers of this section are the same, word for word, in the
    full-surface [main.go] and in its variant with media resolution. *)

Definition nl : string := String (ascii_of_nat 10) EmptyString.
Definition backslash : string := String (ascii_of_nat 92) EmptyString.

Record TextContent : Type := {
  ContentType : string;
  Text : string
}.

Record CallToolResult : Type := {
  Content : list TextContent;
  IsError : bool
}.

(** A Go run-time panic: [s[i]] with [i] outside [0 <= i < len(s)]. *)
Inductive RuntimePanic : Type :=
| IndexOutOfRange (index length : Z).

(** What the dispatch framework gets from a handler: the pair of
    a [CallToolResult] and an [error], or a panic unwinding into it. *)
Inductive Outcome : Type :=
| Returned (result : CallToolResult) (err : option GoError)
| Panicked (p : RuntimePanic).

(** [errorResult] *)
Definition errorResult (message : string) : CallToolResult :=
  {| Content := [ {| ContentType := "text"; Text := "Error: " +:+ message |} ];
     IsError := true |}.

(** The literal [&mcp.CallToolResult{Content: []mcp.Content{mcp.TextContent{
    Type: "text", Text: text}}}]; [IsError] keeps its zero value. *)
Definition textResult (text : string) : CallToolResult :=
  {| Content := [ {| ContentType := "text"; Text := text |} ];
     IsError := false |}.

Section Handlers.
Context `{World}.

Record AnkiMCPServer : Type := {
  ankiClient : AnkiConnect
}.

(** [for _, tag := range l { if s, ok := tag.(string); ok { out = append(out, s) } }] *)
Fixpoint stringElems (l : list Any) : list string :=
  match l with
  | [] => []
  | tag :: rest =>
      match asString (Some tag) with
      | Some tagStr => tagStr :: stringElems rest
      | None => stringElems rest
      end
  end.

(** [modelName := "Basic"; if model, ok := args["model_name"].(string); ok && model is not empty {...}] *)
Definition modelNameArg (args : gmap string Any) : string :=
  match asString (args !! "model_name") with
  | Some model => if String.eqb model EmptyString then "Basic" else model
  | None => "Basic"
  end.

(** [var tags []string; if tagsInterface, ok := args["tags"].([]interface{}); ok {...}] *)
Definition tagsArg (args : gmap string Any) : list string :=
  match asSlice (args !! "tags") with
  | Some tagsInterface => stringElems tagsInterface
  | None => []
  end.

(** The note both card-creating handlers of the full surface build. *)
Definition basicNote (deckName modelName front back : string) (tags : list string) : Note :=
  {| DeckName := deckName;
     ModelName := modelName;
     Fields := {[ "Front" := front; "Back" := back ]};
     Tags := tags;
     Audio := [];
     Picture := [];
     Video := [];
     Options := {[ "allowDuplicate" := VBool false ]} |}.

Definition handleCreateCard (a : AnkiMCPServer) (args : gmap string Any) : IO Outcome :=
  match asString (args !! "deck_name") with
  | None => ret (Returned (errorResult "deck_name is required and must be a string") None)
  | Some deckName =>
  match asString (args !! "front") with
  | None => ret (Returned (errorResult "front is required and must be a string") None)
  | Some front =>
  match asString (args !! "back") with
  | None => ret (Returned (errorResult "back is required and must be a string") None)
  | Some back =>
      let modelName := modelNameArg args in
      let tags := tagsArg args in
      let note := basicNote deckName modelName front back tags in
      let! r := AddNote (ankiClient a) note in
      ret match r with
          | Fail err => Returned (errorResult ("Failed to create card: " +:+ err)) None
          | Ok noteID =>
              Returned (textResult ("Successfully created card with ID: " +:+ Fmt.d noteID)) None
          end
  end end end.

Definition handleListDecks (a : AnkiMCPServer) (args : gmap string Any) : IO Outcome :=
  let! r := GetDeckNames (ankiClient a) in
  ret match r with
      | Fail err => Returned (errorResult ("Failed to get deck names: " +:+ err)) None
      | Ok decks =>
          let deckList := Strings.Join decks nl in
          Returned (textResult ("Available decks (" +:+ Fmt.d (Z.of_nat (length decks))
                                +:+ "):" +:+ nl +:+ deckList)) None
      end.

Definition handleCreateDeck (a : AnkiMCPServer) (args : gmap string Any) : IO Outcome :=
  match asString (args !! "deck_name") with
  | None => ret (Returned (errorResult "deck_name is required and must be a string") None)
  | Some deckName =>
      let! err := CreateDeck (ankiClient a) deckName in
      ret match err with
          | Some err => Returned (errorResult ("Failed to create deck: " +:+ err)) None
          | None => Returned (textResult ("Successfully created deck: " +:+ deckName)) None
          end
  end.

(** [limit := 10; if limitStr, ok := args["limit"].(string); ok && limitStr is not empty {
      if parsedLimit, err := strconv.Atoi(limitStr); err == nil && parsedLimit > 0 {...} }] *)
Definition limitArg (args : gmap string Any) : Z :=
  match asString (args !! "limit") with
  | Some limitStr =>
      if String.eqb limitStr EmptyString then 10
      else match Strconv.Atoi limitStr with
           | Some parsedLimit => if parsedLimit >? 0 then parsedLimit else 10
           | None => 10
           end
  | None => 10
  end.

(** [if len(noteIDs) > limit { noteIDs = noteIDs[:limit] }] *)
Definition truncateIDs (noteIDs : list Z) (limit : Z) : list Z :=
  if Z.of_nat (length noteIDs) >? limit
  then take (Z.to_nat limit) noteIDs
  else noteIDs.

(** The value of a field object: [fields[name].(map...)["value"].(string)],
    the empty string when either assertion fails. *)
Definition fieldValue (fields : gmap string Any) (name : string) : string :=
  match asMap (fields !! name) with
  | Some field =>
      match asString (field !! "value") with
      | Some value => value
      | None => EmptyString
      end
  | None => EmptyString
  end.

(** The body of the rendering loop for one note; [None] is [continue]. *)
Definition noteSummary (noteID : Z) (noteInfo : gmap string Any) : option string :=
  match asMap (noteInfo !! "fields") with
  | None => None
  | Some fields =>
      let front := fieldValue fields "Front" in
      let back := fieldValue fields "Back" in
      let tags :=
        match asSlice (noteInfo !! "tags") with
        | Some tagsInterface => stringElems tagsInterface
        | None => []
        end in
      let result :=
        "ID: " +:+ Fmt.d noteID +:+ nl +:+ "Front: " +:+ front +:+ nl +:+ "Back: " +:+ back in
      Some (if Z.of_nat (length tags) >? 0
            then result +:+ nl +:+ "Tags: " +:+ Strings.Join tags ", "
            else result)
  end.

(** [for i, noteInfo := range notesInfo { noteID := noteIDs[i]; ... }],
    entered at index [i] with the [results] gathered so far. *)
Fixpoint summaries (noteIDs : list Z) (i : nat) (notesInfo : list (gmap string Any))
    (results : list string) : RuntimePanic + list string :=
  match notesInfo with
  | [] => inr results
  | noteInfo :: rest =>
      match noteIDs !! i with
      | None => inl (IndexOutOfRange (Z.of_nat i) (Z.of_nat (length noteIDs)))
      | Some noteID =>
          summaries noteIDs (S i) rest
            match noteSummary noteID noteInfo with
            | Some result => results ++ [result]
            | None => results
            end
      end
  end.

Definition separator : string := nl +:+ nl +:+ "---" +:+ nl +:+ nl.

Definition handleSearchCards (a : AnkiMCPServer) (args : gmap string Any) : IO Outcome :=
  match asString (args !! "query") with
  | None => ret (Returned (errorResult "query is required and must be a string") None)
  | Some query =>
      let limit := limitArg args in
      let! r := FindNotes (ankiClient a) query in
      match r with
      | Fail err => ret (Returned (errorResult ("Failed to search cards: " +:+ err)) None)
      | Ok noteIDs =>
          if Z.of_nat (length noteIDs) =? 0
          then ret (Returned (textResult "No cards found matching the query.") None)
          else
            let noteIDs := truncateIDs noteIDs limit in
            let! r := GetNotesInfo (ankiClient a) noteIDs in
            ret match r with
                | Fail err =>
                    Returned (errorResult ("Failed to get note details: " +:+ err)) None
                | Ok notesInfo =>
                    match summaries noteIDs 0 notesInfo [] with
                    | inl p => Panicked p
                    | inr results =>
                        Returned
                          (textResult
                             ("Found " +:+ Fmt.d (Z.of_nat (length noteIDs))
                              +:+ " cards (showing " +:+ Fmt.d (Z.of_nat (length results))
                              +:+ "):" +:+ nl +:+ nl +:+ Strings.Join results separator))
                          None
                    end
                end
      end
  end.

Definition handleGetModels (a : AnkiMCPServer) (args : gmap string Any) : IO Outcome :=
  let! r := GetModelNames (ankiClient a) in
  ret match r with
      | Fail err => Returned (errorResult ("Failed to get models: " +:+ err)) None
      | Ok models =>
          let modelList := Strings.Join models nl in
          Returned (textResult ("Available models (" +:+ Fmt.d (Z.of_nat (length models))
                                +:+ "):" +:+ nl +:+ modelList)) None
      end.

Definition handleGetModelFields (a : AnkiMCPServer) (args : gmap string Any) : IO Outcome :=
  match asString (args !! "model_name") with
  | None => ret (Returned (errorResult "model_name is required and must be a string") None)
  | Some modelName =>
      let! r := GetModelFieldNames (ankiClient a) modelName in
      ret match r with
          | Fail err => Returned (errorResult ("Failed to get model fields: " +:+ err)) None
          | Ok fields =>
              let fieldList := Strings.Join fields nl in
              Returned (textResult ("Fields for model '" +:+ modelName +:+ "' ("
                                    +:+ Fmt.d (Z.of_nat (length fields))
                                    +:+ "):" +:+ nl +:+ fieldList)) None
          end
  end.

Definition handleSync (a : AnkiMCPServer) (args : gmap string Any) : IO Outcome :=
  let! err := Sync (ankiClient a) in
  ret match err with
      | Some err => Returned (errorResult ("Failed to sync: " +:+ err)) None
      | None => Returned (textResult "Successfully triggered sync with AnkiWeb") None
      end.

Definition handlePing (a : AnkiMCPServer) (args : gmap string Any) : IO Outcome :=
  let! err := Ping (ankiClient a) in
  ret match err with
      | Some err => Returned (errorResult ("AnkiConnect is not available: " +:+ err)) None
      | None => Returned (textResult "AnkiConnect is available and responding") None
      end.

(** [fileToBase64] *)
Definition fileToBase64 (filePath : string) : Fallible string :=
  match os_ReadFile filePath with
  | Fail err => Fail ("failed to read file " +:+ filePath +:+ ": " +:+ err)
  | Ok data => Ok (base64_EncodeToString data)
  end.

End Handlers.

(** ** The two media handlers of the full surface, media passed inline

    [handleAddMedia] and [handleCreateCardWithMedia] as [main.go] has them:
    the media arguments are base64 text and are used as they come. *)

Module Inline.
Section Handlers.
Context `{World}.

Definition handleAddMedia (a : AnkiMCPServer) (args : gmap string Any) : IO Outcome :=
  match asString (args !! "filename") with
  | None => ret (Returned (errorResult "filename is required and must be a string") None)
  | Some filename =>
  match asString (args !! "data") with
  | None => ret (Returned (errorResult "data is required and must be a string") None)
  | Some dataStr =>
  match base64_DecodeString dataStr with
  | Fail err => ret (Returned (errorResult ("Failed to decode base64 data: " +:+ err)) None)
  | Ok data =>
      let! err := StoreMediaFile (ankiClient a) filename data in
      ret match err with
          | Some err => Returned (errorResult ("Failed to store media file: " +:+ err)) None
          | None => Returned (textResult ("Successfully stored media file: " +:+ filename)) None
          end
  end end end.

(** One media slot: a descriptor is appended when the filename and the
    data are both non-empty strings. *)
Definition mediaSlot (args : gmap string Any) (nameKey dataKey : string) : list MediaFile :=
  match asString (args !! nameKey) with
  | Some filename =>
      if String.eqb filename EmptyString then []
      else match asString (args !! dataKey) with
           | Some data =>
               if String.eqb data EmptyString then []
               else [ {| Path := EmptyString; Filename := filename;
                         MediaFields := ["Front"]; Data := data |} ]
           | None => []
           end
  | None => []
  end.

Definition handleCreateCardWithMedia (a : AnkiMCPServer) (args : gmap string Any)
  : IO Outcome :=
  match asString (args !! "deck_name") with
  | None => ret (Returned (errorResult "deck_name is required and must be a string") None)
  | Some deckName =>
  match asString (args !! "front") with
  | None => ret (Returned (errorResult "front is required and must be a string") None)
  | Some front =>
  match asString (args !! "back") with
  | None => ret (Returned (errorResult "back is required and must be a string") None)
  | Some back =>
      let modelName := modelNameArg args in
      let tags := tagsArg args in
      let note := basicNote deckName modelName front back tags in
      let note :=
        {| DeckName := DeckName note; ModelName := ModelName note;
           Fields := Fields note; Tags := Tags note;
           Audio := Audio note ++ mediaSlot args "audio_filename" "audio_data";
           Picture := Picture note ++ mediaSlot args "image_filename" "image_data";
           Video := Video note; Options := Options note |} in
      let! r := AddNote (ankiClient a) note in
      ret match r with
          | Fail err =>
              Returned (errorResult ("Failed to create card with media: " +:+ err)) None
          | Ok noteID =>
              Returned (textResult ("Successfully created card with media, ID: "
                                    +:+ Fmt.d noteID)) None
          end
  end end end.

End Handlers.
End Inline.

(** ** The two media handlers of the full surface, media resolved first

    The variant of [main.go] in which a media argument may also be a data
    URI or the path of a file: [processMediaData] and the two handlers
    that call it. *)

Module Resolving.
Section Handlers.
Context `{World}.

(** [processMediaData] *)
Definition processMediaData (data : string) : Fallible string :=
  if Strings.HasPrefix data "data:" then
    let parts := Strings.Split data "," in
    match parts with
    | [_; payload] => Ok payload
    | _ => Fail "invalid data URI format"
    end
  else if (Strings.Contains data "/" || Strings.Contains data backslash)
          && negb (Strings.Contains data "base64,") then
    if os_Stat data then fileToBase64 data else Ok data
  else Ok data.

Definition handleAddMedia (a : AnkiMCPServer) (args : gmap string Any) : IO Outcome :=
  match asString (args !! "filename") with
  | None => ret (Returned (errorResult "filename is required and must be a string") None)
  | Some filename =>
  match asString (args !! "data") with
  | None => ret (Returned (errorResult "data is required and must be a string") None)
  | Some dataStr =>
  match processMediaData dataStr with
  | Fail err => ret (Returned (errorResult ("Failed to process media data: " +:+ err)) None)
  | Ok processedData =>
  match base64_DecodeString processedData with
  | Fail err => ret (Returned (errorResult ("Failed to decode base64 data: " +:+ err)) None)
  | Ok data =>
      let! err := StoreMediaFile (ankiClient a) filename data in
      ret match err with
          | Some err => Returned (errorResult ("Failed to store media file: " +:+ err)) None
          | None => Returned (textResult ("Successfully stored media file: " +:+ filename)) None
          end
  end end end end.

(** One media slot: nothing to attach, a descriptor with the resolved
    data, or the error of the resolution. *)
Definition mediaSlot (args : gmap string Any) (nameKey dataKey : string)
  : Fallible (list MediaFile) :=
  match asString (args !! nameKey) with
  | Some filename =>
      if String.eqb filename EmptyString then Ok []
      else match asString (args !! dataKey) with
           | Some data =>
               if String.eqb data EmptyString then Ok []
               else match processMediaData data with
                    | Fail err => Fail err
                    | Ok processedData =>
                        Ok [ {| Path := EmptyString; Filename := filename;
                                MediaFields := []; Data := processedData |} ]
                    end
           | None => Ok []
           end
  | None => Ok []
  end.

Definition handleCreateCardWithMedia (a : AnkiMCPServer) (args : gmap string Any)
  : IO Outcome :=
  match asString (args !! "deck_name") with
  | None => ret (Returned (errorResult "deck_name is required and must be a string") None)
  | Some deckName =>
  match asString (args !! "front") with
  | None => ret (Returned (errorResult "front is required and must be a string") None)
  | Some front =>
  match asString (args !! "back") with
  | None => ret (Returned (errorResult "back is required and must be a string") None)
  | Some back =>
      let modelName := modelNameArg args in
      let tags := tagsArg args in
      let note := basicNote deckName modelName front back tags in
      match mediaSlot args "audio_filename" "audio_data" with
      | Fail err =>
          ret (Returned (errorResult ("Failed to process audio data: " +:+ err)) None)
      | Ok audio =>
      match mediaSlot args "image_filename" "image_data" with
      | Fail err =>
          ret (Returned (errorResult ("Failed to process image data: " +:+ err)) None)
      | Ok picture =>
          let note :=
            {| DeckName := DeckName note; ModelName := ModelName note;
               Fields := Fields note; Tags := Tags note;
               Audio := Audio note ++ audio;
               Picture := Picture note ++ picture;
               Video := Video note; Options := Options note |} in
          let! r := AddNote (ankiClient a) note in
          ret match r with
              | Fail err =>
                  Returned (errorResult ("Failed to create card with media: " +:+ err)) None
              | Ok noteID =>
                  Returned (textResult ("Successfully created card with media, ID: "
                                        +:+ Fmt.d noteID)) None
              end
      end end
  end end end.

End Handlers.
End Resolving.

(** ** The reduced tool surface

    The "simple" server: three tools, media given as file paths, and a
    fixed layout of the card text. *)

Module Simple.
Section Handlers.
Context `{World}.

(** [formatContent] *)
Definition formatContent (text imageName audioName : string) : string :=
  let content := EmptyString in
  let content :=
    if String.eqb imageName EmptyString then content
    else content +:+ ("<img src=" +:+ String (ascii_of_nat 34) EmptyString +:+ imageName
                      +:+ String (ascii_of_nat 34) EmptyString +:+ "><br><br>") in
  let content := content +:+ text in
  let content :=
    if String.eqb audioName EmptyString then content
    else content +:+ ("<br><br>[sound:" +:+ audioName +:+ "]") in
  content.

(** [parts := strings.Split(path, "/"); if len(parts) == 0 { parts =
    strings.Split(path, backslash) }; name = parts[len(parts)-1]] *)
Definition fileNameOf (path : string) : RuntimePanic + string :=
  let parts := Strings.Split path "/" in
  let parts :=
    if Z.of_nat (length parts) =? 0 then Strings.Split path backslash else parts in
  match last parts with
  | Some name => inr name
  | None => inl (IndexOutOfRange (Z.of_nat (length parts) - 1) (Z.of_nat (length parts)))
  end.

(** One optional media path of [handleCreateCard]: when the argument is
    a non-empty string the file is read, named after the last component
    of its path and stored.  The result is the name to reference (empty
    when there is nothing to attach), or the outcome the handler returns
    at once.  [what] is "image", "front audio" or "back audio". *)
Definition storeOptional (a : AnkiMCPServer) (args : gmap string Any)
    (key what : string) : IO (Outcome + string) :=
  match asString (args !! key) with
  | None => ret (inr EmptyString)
  | Some path =>
      if String.eqb path EmptyString then ret (inr EmptyString)
      else
        match fileToBase64 path with
        | Fail err =>
            ret (inl (Returned (errorResult ("Failed to read " +:+ what +:+ " file: "
                                             +:+ err)) None))
        | Ok mediaData =>
            match fileNameOf path with
            | inl p => ret (inl (Panicked p))
            | inr name =>
                match base64_DecodeString mediaData with
                | Fail err =>
                    ret (inl (Returned (errorResult ("Failed to decode " +:+ what
                                                     +:+ " data: " +:+ err)) None))
                | Ok decodedData =>
                    let! err := StoreMediaFile (ankiClient a) name decodedData in
                    ret match err with
                        | Some err =>
                            inl (Returned (errorResult ("Failed to store " +:+ what
                                                        +:+ ": " +:+ err)) None)
                        | None => inr name
                        end
                end
            end
        end
  end.

Definition handleCreateCard (a : AnkiMCPServer) (args : gmap string Any) : IO Outcome :=
  match asString (args !! "deck") with
  | None => ret (Returned (errorResult "deck is required") None)
  | Some deckName =>
  match asString (args !! "front") with
  | None => ret (Returned (errorResult "front is required") None)
  | Some frontText =>
  match asString (args !! "back") with
  | None => ret (Returned (errorResult "back is required") None)
  | Some backText =>
      let tags := tagsArg args in
      let! image := storeOptional a args "image_path" "image" in
      match image with
      | inl out => ret out
      | inr imageName =>
      let! frontAudio := storeOptional a args "front_audio_path" "front audio" in
      match frontAudio with
      | inl out => ret out
      | inr frontAudioName =>
      let! backAudio := storeOptional a args "back_audio_path" "back audio" in
      match backAudio with
      | inl out => ret out
      | inr backAudioName =>
          let frontContent := formatContent frontText imageName frontAudioName in
          let backContent := formatContent backText EmptyString backAudioName in
          let note := basicNote deckName "Basic" frontContent backContent tags in
          let! r := AddNote (ankiClient a) note in
          ret match r with
              | Fail err => Returned (errorResult ("Failed to create card: " +:+ err)) None
              | Ok noteID => Returned (textResult ("Created card (ID: " +:+ Fmt.d noteID
                                                   +:+ ")")) None
              end
      end end end
  end end end.

Definition handleListDecks (a : AnkiMCPServer) (args : gmap string Any) : IO Outcome :=
  let! r := GetDeckNames (ankiClient a) in
  ret match r with
      | Fail err => Returned (errorResult ("Failed to get decks: " +:+ err)) None
      | Ok decks =>
          let deckList := Strings.Join decks nl in
          Returned (textResult ("Decks (" +:+ Fmt.d (Z.of_nat (length decks))
                                +:+ "):" +:+ nl +:+ deckList)) None
      end.

Definition handleCreateDeck (a : AnkiMCPServer) (args : gmap string Any) : IO Outcome :=
  match asString (args !! "name") with
  | None => ret (Returned (errorResult "name is required") None)
  | Some deckName =>
      let! err := CreateDeck (ankiClient a) deckName in
      ret match err with
          | Some err => Returned (errorResult ("Failed to create deck: " +:+ err)) None
          | None => Returned (textResult ("Created deck: " +:+ deckName)) None
          end
  end.

End Handlers.
End Simple.

(** ** Concrete worlds

    Numbers are integers here, the add-on answers by action name alone,
    and the file system is empty. *)

Module Examples.

Definition intFloat : Float64 :=
  {| float64 := Z; int64_of_float64 := fun z => z |}.

Definition scripted (answer : string -> @Wire intFloat) : @World intFloat :=
  {| remote := fun _ c => answer (Action (snd c));
     os_Stat := fun _ => false;
     os_ReadFile := fun _ => Fail "no such file or directory";
     base64_EncodeToString := fun _ => EmptyString;
     base64_DecodeString := fun _ => Ok [] |}.

Definition num (z : Z) : @Any intFloat := @VFloat64 intFloat z.

Definition reply (result : @Any intFloat) : @Wire intFloat :=
  Decoded {| Result := result; Error := EmptyString |}.

Definition server : AnkiMCPServer :=
  {| ankiClient := NewAnkiConnect |}.

(** The add-on answers every action with the decks "Default" and "Spanish". *)
Definition twoDecks : @World intFloat :=
  scripted (fun _ => reply (VSlice [VString "Default"; VString "Spanish"])).

(** The add-on reports an error whatever the action. *)
Definition failing : @World intFloat :=
  scripted (fun _ => Decoded {| Result := VNil; Error := "deck not found" |}).

(** The add-on accepts every note and numbers it 1496198395707. *)
Definition accepting : @World intFloat :=
  scripted (fun _ => reply (num 1496198395707)).

(** A note as [notesInfo] describes it. *)
Definition noteInfo (front back : string) (tags : list string) : @Any intFloat :=
  VMap {[ "fields" := VMap {[ "Front" := VMap {[ "value" := VString front ]};
                              "Back" := VMap {[ "value" := VString back ]} ]};
          "tags" := VSlice (VString <$> tags) ]}.

(** [findNotes] answers [ids], [notesInfo] answers [notes]. *)
Definition searching (ids : list Z) (notes : list (@Any intFloat)) : @World intFloat :=
  scripted (fun action =>
              if String.eqb action "findNotes"
              then reply (VSlice (num <$> ids))
              else reply (VSlice notes)).

End Examples.

(** ** Vocabulary of the properties *)

(** The number of occurrences of the byte [c] in [s]. *)
Fixpoint countByte (c : ascii) (s : string) : nat :=
  match s with
  | EmptyString => O
  | String a s' => (if Ascii.eqb c a then 1 else 0)%nat + countByte c s'
  end.

(** Resolving a media string and resolving the result again. *)
Definition resolveTwice `{World} (data : string) : Fallible string :=
  match Resolving.processMediaData data with
  | Ok once => Resolving.processMediaData once
  | Fail err => Fail err
  end.

Section Vocabulary.
Context `{World}.

Definition isString (v : Any) : bool :=
  match v with VString _ => true | _ => false end.

Definition Handler : Type := AnkiMCPServer -> gmap string Any -> IO Outcome.

(** The call [invoke] records for [action] and [params]. *)
Definition callOf (ac : AnkiConnect) (action : string) (params : Param) : Call :=
  (URL ac, {| Action := action; ReqVersion := Version ac; Params := params |}).

(** The handler treats a string argument that is missing, of another
    type or empty as it treats its absence. *)
Definition optionalString (h : Handler) (key : string) : Prop :=
  forall a args tr,
    asString (args !! key) = None \/ asString (args !! key) = Some EmptyString ->
    h a args tr = h a (delete key args) tr.

(** The same for an array argument. *)
Definition optionalSlice (h : Handler) (key : string) : Prop :=
  forall a args tr,
    asSlice (args !! key) = None \/ asSlice (args !! key) = Some [] ->
    h a args tr = h a (delete key args) tr.



(** The note object has a "fields" entry that is an object. *)
Definition hasFields (noteInfo : gmap string Any) : bool :=
  match asMap (noteInfo !! "fields") with Some _ => true | None => false end.

(** The summaries of the note objects, each paired with the identifier at
    its position; a note object that [noteSummary] skips leaves none. *)
Definition rendered (noteIDs : list Z) (notesInfo : list (gmap string Any)) : list string :=
  omap (fun p => noteSummary (fst p) (snd p)) (zip noteIDs notesInfo).

(** The text of a successful search. *)
Definition foundText (found : nat) (results : list string) : string :=
  "Found " +:+ Fmt.d (Z.of_nat found) +:+ " cards (showing "
  +:+ Fmt.d (Z.of_nat (length results)) +:+ "):" +:+ nl +:+ nl
  +:+ Strings.Join results separator.

(** The handlers other than the search, over the three tool surfaces. *)
Definition otherHandlers : list Handler :=
  [ handleCreateCard; handleListDecks; handleCreateDeck; handleGetModels;
    handleGetModelFields; handleSync; handlePing;
    Inline.handleAddMedia; Inline.handleCreateCardWithMedia;
    Resolving.handleAddMedia; Resolving.handleCreateCardWithMedia;
    Simple.handleCreateCard; Simple.handleListDecks; Simple.handleCreateDeck ].

(** The handler hands the framework a result and a nil error; the result
    is a success text, or an "Error: ..." text flagged as an error. *)
Definition wellFormed (o : Outcome) : Prop :=
  exists text, o = Returned (textResult text) None
               \/ o = Returned (errorResult text) None.

End Vocabulary.

(** ** Start-up and tool registration *)

(** [NewAnkiMCPServer]; [getenv] is [os.Getenv]. *)
Definition NewAnkiMCPServer (getenv : string -> string) : AnkiMCPServer :=
  let url := getenv "ANKI_CONNECT_URL" in
  let url := if String.eqb url EmptyString then defaultAnkiConnectURL else url in
  {| ankiClient := NewAnkiConnectWithURL url |}.

(** The kind of a declared argument: [mcp.WithString] or [mcp.WithArray]. *)
Inductive ParamType : Type :=
| TString
| TArray.

(** One declared argument; [paramRequired] is set by [mcp.Required()]. *)
Record ToolParam : Type := {
  paramName : string;
  paramType : ParamType;
  paramRequired : bool;
  paramDescription : string
}.

Definition WithString (name : string) (required : bool) (description : string) : ToolParam :=
  {| paramName := name; paramType := TString; paramRequired := required;
     paramDescription := description |}.

Definition WithArray (name : string) (required : bool) (description : string) : ToolParam :=
  {| paramName := name; paramType := TArray; paramRequired := required;
     paramDescription := description |}.

Definition doubleQuote : string := String (ascii_of_nat 34) EmptyString.

Section Registration.
Context `{World}.

(** What [s.AddTool(mcp.NewTool(name, ...), handler)] registers. *)
Record Tool : Type := {
  toolName : string;
  toolDescription : string;
  toolParams : list ToolParam;
  toolHandler : Handler
}.

(** The arguments a tool declares as required, and the others. *)
Definition requiredParams (t : Tool) : list ToolParam :=
  List.filter paramRequired (toolParams t).

Definition optionalParams (t : Tool) : list ToolParam :=
  List.filter (fun p => negb (paramRequired p)) (toolParams t).

(** The tools that need no argument and the one-argument tools are
    declared alike on the two full surfaces. *)
Definition listDecksTool : Tool :=
  {| toolName := "list_decks";
     toolDescription := "List all available Anki decks";
     toolParams := [];
     toolHandler := handleListDecks |}.

Definition createDeckTool : Tool :=
  {| toolName := "create_deck";
     toolDescription := "Create a new Anki deck";
     toolParams := [ WithString "deck_name" true "Name of the deck to create" ];
     toolHandler := handleCreateDeck |}.

Definition searchCardsTool : Tool :=
  {| toolName := "search_cards";
     toolDescription := "Search for cards using Anki's search syntax";
     toolParams :=
       [ WithString "query" true
           "Search query using Anki search syntax (e.g., 'deck:MyDeck', 'tag:important')";
         WithString "limit" false "Maximum number of results to return (default: 10)" ];
     toolHandler := handleSearchCards |}.

Definition getModelsTool : Tool :=
  {| toolName := "get_models";
     toolDescription := "Get all available note types/models in Anki";
     toolParams := [];
     toolHandler := handleGetModels |}.

Definition getModelFieldsTool : Tool :=
  {| toolName := "get_model_fields";
     toolDescription := "Get field names for a specific note type/model";
     toolParams := [ WithString "model_name" true "Name of the model to get fields for" ];
     toolHandler := handleGetModelFields |}.

Definition syncTool : Tool :=
  {| toolName := "sync";
     toolDescription := "Trigger Anki to sync with AnkiWeb";
     toolParams := [];
     toolHandler := handleSync |}.

Definition pingTool : Tool :=
  {| toolName := "ping";
     toolDescription := "Check if AnkiConnect is available and responding";
     toolParams := [];
     toolHandler := handlePing |}.

End Registration.

(** [registerTools] of the full surface with media passed inline. *)
Module InlineTools.
Section Registration.
Context `{World}.

Definition createCardTool : Tool :=
  {| toolName := "create_card";
     toolDescription := "Create a new Anki card in a specified deck";
     toolParams :=
       [ WithString "deck_name" true "Name of the deck to add the card to";
         WithString "front" true "Front side content of the card";
         WithString "back" true "Back side content of the card";
         WithString "model_name" false "Model/note type to use (default: Basic)";
         WithArray "tags" false "Tags to add to the card" ];
     toolHandler := handleCreateCard |}.

Definition addMediaTool : Tool :=
  {| toolName := "add_media";
     toolDescription := "Add a media file to Anki's media collection";
     toolParams :=
       [ WithString "filename" true "Name of the media file";
         WithString "data" true "Base64 encoded media file data" ];
     toolHandler := Inline.handleAddMedia |}.

Definition createCardWithMediaTool : Tool :=
  {| toolName := "create_card_with_media";
     toolDescription := "Create a new Anki card with media attachments";
     toolParams :=
       [ WithString "deck_name" true "Name of the deck to add the card to";
         WithString "front" true "Front side content of the card";
         WithString "back" true "Back side content of the card";
         WithString "model_name" false "Model/note type to use (default: Basic)";
         WithArray "tags" false "Tags to add to the card";
         WithString "audio_filename" false "Audio filename to attach";
         WithString "audio_data" false "Base64 encoded audio data";
         WithString "image_filename" false "Image filename to attach";
         WithString "image_data" false "Base64 encoded image data" ];
     toolHandler := Inline.handleCreateCardWithMedia |}.

Definition registerTools : list Tool :=
  [ createCardTool; listDecksTool; createDeckTool; searchCardsTool; addMediaTool;
    createCardWithMediaTool; getModelsTool; getModelFieldsTool; syncTool; pingTool ].

End Registration.
End InlineTools.

(** [registerTools] of the full surface with media resolved first. *)
Module ResolvingTools.
Section Registration.
Context `{World}.

Definition createCardTool : Tool :=
  {| toolName := "create_card";
     toolDescription := "Create a new Anki card in a specified deck";
     toolParams :=
       [ WithString "deck_name" true "Name of the deck to add the card to";
         WithString "front" true
           "Front side content of the card (HTML supported, use [sound:filename] for audio)";
         WithString "back" true
           "Back side content of the card (HTML supported, use [sound:filename] for audio)";
         WithString "model_name" false "Model/note type to use (default: Basic)";
         WithArray "tags" false "Tags to add to the card" ];
     toolHandler := handleCreateCard |}.

Definition addMediaTool : Tool :=
  {| toolName := "add_media";
     toolDescription := "Add a media file to Anki's media collection";
     toolParams :=
       [ WithString "filename" true "Name of the media file";
         WithString "data" true
           "Media data - either base64 encoded data, a data URI (data:type/subtype;base64,...), or a file path to the media file" ];
     toolHandler := Resolving.handleAddMedia |}.

Definition createCardWithMediaTool : Tool :=
  {| toolName := "create_card_with_media";
     toolDescription :=
       "Create a new Anki card with media attachments. Media files are uploaded but not automatically embedded - use [sound:filename] or <img src="
       +:+ doubleQuote +:+ "filename" +:+ doubleQuote +:+ "> tags in your content";
     toolParams :=
       [ WithString "deck_name" true "Name of the deck to add the card to";
         WithString "front" true
           "Front side content of the card (HTML supported, use [sound:filename] for audio)";
         WithString "back" true
           "Back side content of the card (HTML supported, use [sound:filename] for audio)";
         WithString "model_name" false "Model/note type to use (default: Basic)";
         WithArray "tags" false "Tags to add to the card";
         WithString "audio_filename" false
           "Filename for the audio file (e.g., 'pronunciation.mp3')";
         WithString "audio_data" false
           "Audio data - either base64 encoded audio, a data URI (data:audio/mpeg;base64,...), or a file path to an audio file";
         WithString "image_filename" false
           "Filename for the image file (e.g., 'diagram.png')";
         WithString "image_data" false
           "Image data - either base64 encoded image, a data URI (data:image/png;base64,...), or a file path to an image file" ];
     toolHandler := Resolving.handleCreateCardWithMedia |}.

Definition registerTools : list Tool :=
  [ createCardTool; listDecksTool; createDeckTool; searchCardsTool; addMediaTool;
    createCardWithMediaTool; getModelsTool; getModelFieldsTool; syncTool; pingTool ].

End Registration.
End ResolvingTools.

(** [registerTools] of the reduced surface. *)
Module SimpleTools.
Section Registration.
Context `{World}.

Definition createCardTool : Tool :=
  {| toolName := "create_card";
     toolDescription :=
       "Create a Basic Anki card. Images appear above text, audio references below text. Supports separate audio for front and back.";
     toolParams :=
       [ WithString "deck" true "Name of the deck";
         WithString "front" true "Front text content";
         WithString "back" true "Back text content";
         WithString "image_path" false "Optional: Path to an image file to include";
         WithString "front_audio_path" false
           "Optional: Path to an audio file for the front of the card";
         WithString "back_audio_path" false
           "Optional: Path to an audio file for the back of the card";
         WithArray "tags" false "Optional: Tags for the card" ];
     toolHandler := Simple.handleCreateCard |}.

Definition listDecksTool : Tool :=
  {| toolName := "list_decks";
     toolDescription := "List all available Anki decks";
     toolParams := [];
     toolHandler := Simple.handleListDecks |}.

Definition createDeckTool : Tool :=
  {| toolName := "create_deck";
     toolDescription := "Create a new Anki deck";
     toolParams := [ WithString "name" true "Name of the deck to create" ];
     toolHandler := Simple.handleCreateDeck |}.

Definition registerTools : list Tool :=
  [ createCardTool; listDecksTool; createDeckTool ].

End Registration.
End SimpleTools.

(** ** Vocabulary of the further properties *)

Section FurtherVocabulary.
Context `{World}.

(** When an argument the tool declares as required is missing or is not a
    string, the handler returns the error result that names such an
    argument, "<name> is required...", and makes no call. *)
Definition enforcesRequired (t : Tool) : Prop :=
  forall a args tr,
    (exists p, In p (requiredParams t) /\ asString (args !! paramName p) = None) ->
    exists key rest,
      In key (paramName <$> requiredParams t)
      /\ asString (args !! key) = None
      /\ toolHandler t a args tr
         = (Returned (errorResult (key +:+ " is required" +:+ rest)) None, tr).

(** Every argument the tool declares without [mcp.Required()] is optional
    for the handler, in the sense that fits its declared type. *)
Definition optionalAsDeclared (t : Tool) : Prop :=
  Forall (fun p => match paramType p with
                   | TString => optionalString (toolHandler t) (paramName p)
                   | TArray => optionalSlice (toolHandler t) (paramName p)
                   end)
         (optionalParams t).

(** The action names of the calls of a trace. *)
Definition actionsOf (tr : Trace) : list string :=
  (fun c => Action (snd c)) <$> tr.

(** The text an entry shows for the field [name] of a note: the string
    under "value" of the field object, and the empty string when the
    field is missing, is not an object, or has no string under "value". *)
Definition fieldReads (fields : gmap string Any) (name text : string) : Prop :=
  (forall field value,
      fields !! name = Some (VMap field) ->
      field !! "value" = Some (VString value) ->
      text = value)
  /\ ((forall field, fields !! name <> Some (VMap field)) -> text = EmptyString)
  /\ (forall field,
        fields !! name = Some (VMap field) ->
        (forall value, field !! "value" <> Some (VString value)) ->
        text = EmptyString).

(** The tags an entry shows for a note: the string elements of its "tags"
    list, in order, and none when "tags" is missing or is not a list. *)
Definition tagsRead (noteInfo : gmap string Any) (tags : list string) : Prop :=
  (forall l, noteInfo !! "tags" = Some (VSlice l) -> VString <$> tags = List.filter isString l)
  /\ ((forall l, noteInfo !! "tags" <> Some (VSlice l)) -> tags = []).





(** The handlers that talk to the add-on at most once. *)
Definition singleRequestHandlers : list Handler :=
  [ handleCreateCard; handleListDecks; handleCreateDeck; handleGetModels;
    handleGetModelFields; handleSync; handlePing;
    Inline.handleAddMedia; Inline.handleCreateCardWithMedia;
    Resolving.handleAddMedia; Resolving.handleCreateCardWithMedia;
    Simple.handleListDecks; Simple.handleCreateDeck ].

(** The call is an upload to the media store of the add-on. *)
Definition isUpload (c : Call) : Prop := Action (snd c) = "storeMediaFile".

End FurtherVocabulary.

(** ** More concrete inputs *)

Module Inputs.

(** A create_deck call that names its argument as the reduced surface
    does, sent to the full surface. *)
Definition deckUnderName : gmap string (@Any Examples.intFloat) :=
  {[ "name" := VString "Spanish" ]}.

(** A world with one readable file, /tmp/hola.png, holding the bytes
    "PNG", and a directory /tmp; base64 is right on these bytes; the
    add-on stores every file and numbers every note 7. *)
Definition onDisk : @World Examples.intFloat :=
  {| remote := fun _ c =>
                 if String.eqb (Action (snd c)) "addNote"
                 then Examples.reply (Examples.num 7)
                 else Examples.reply VNil;
     os_Stat := fun path => String.eqb path "/tmp/hola.png" || String.eqb path "/tmp";
     os_ReadFile := fun path =>
                      if String.eqb path "/tmp/hola.png"
                      then Ok [Byte.x50; Byte.x4e; Byte.x47]
                      else Fail ("read " +:+ path +:+ ": is a directory");
     base64_EncodeToString := fun _ => "UE5H";
     base64_DecodeString := fun s =>
                              if String.eqb s "UE5H"
                              then Ok [Byte.x50; Byte.x4e; Byte.x47]
                              else Fail "illegal base64 data at input byte 0" |}.

End Inputs.

(** * Properties *)

(** ** Strings *)

Lemma prefix_single (c a : ascii) (s : string) :
  String.prefix (String c EmptyString) (String a s) = Ascii.eqb c a.
Proof.
  simpl. destruct (ascii_dec c a) as [->|Hne].
  - rewrite Ascii.eqb_refl. now destruct s.
  - symmetry. now apply Ascii.eqb_neq.
Qed.

(** ** C1: the envelope *)

Section ClientProperties.
Context `{World}.

Lemma invoke_trace (ac : AnkiConnect) (action : string) (params : Param) (tr : Trace) :
  snd (invoke ac action params tr)
  = tr ++ [(URL ac, {| Action := action; ReqVersion := Version ac; Params := params |})].
Proof. reflexivity. Qed.

(** C1. When the round trip and the decoding succeed, [invoke] fails
    with the message of the envelope if its error field is not empty,
    and returns the result field if it is empty; the two never mix: a
    returned result means the error field was empty, and a remote error
    means it was not. *)
Theorem invoke_unwraps_envelope
    (ac : AnkiConnect) (action : string) (params : Param) (tr : Trace)
    (resp : ankiResponse) :
  remote tr (URL ac, {| Action := action; ReqVersion := Version ac; Params := params |})
    = Decoded resp ->
  (Error resp <> EmptyString ->
     fst (invoke ac action params tr) = Fail ("AnkiConnect error: " +:+ Error resp))
  /\ (Error resp = EmptyString ->
        fst (invoke ac action params tr) = Ok (Result resp))
  /\ (forall v, fst (invoke ac action params tr) = Ok v ->
        Error resp = EmptyString /\ v = Result resp)
  /\ (forall err, fst (invoke ac action params tr) = Fail err ->
        Error resp <> EmptyString /\ err = "AnkiConnect error: " +:+ Error resp).
Proof.
  intros Hwire. unfold invoke, bind, ret, roundTrip. cbn. rewrite Hwire.
  destruct (String.eqb_spec (Error resp) EmptyString) as [He|He].
  - repeat split; try congruence.
  - repeat split; try congruence.
Qed.

End ClientProperties.

Lemma invoke_unwraps_envelope_witness :
  fst (@invoke _ Examples.failing NewAnkiConnect "createDeck"
         (PStringMap {[ "deck" := "Spanish" ]}) [])
  = Fail "AnkiConnect error: deck not found".
Proof.
  refine (proj1 (@invoke_unwraps_envelope _ Examples.failing NewAnkiConnect "createDeck"
                   (PStringMap {[ "deck" := "Spanish" ]}) []
                   {| Result := VNil; Error := "deck not found" |} _) _).
  - reflexivity.
  - discriminate.
Defined.

(** ** The handlers *)

Section HandlerProperties.
Context `{World}.

Lemma stringsOf_strings (msg : GoError) (names : list string) :
  stringsOf msg (VString <$> names) = Ok names.
Proof.
  induction names as [|n names IH]; [reflexivity|].
  cbn. cbn in IH. now rewrite IH.
Qed.

Lemma stringElems_filter (l : list Any) :
  VString <$> stringElems l = List.filter isString l.
Proof.
  induction l as [|v l IH]; [reflexivity|].
  destruct v; cbn; try exact IH. cbn in IH. now rewrite IH.
Qed.

Lemma stringElems_strings (ts : list string) :
  stringElems (VString <$> ts) = ts.
Proof.
  induction ts as [|t ts IH]; [reflexivity|].
  cbn. cbn in IH. now rewrite IH.
Qed.


(** C10. When the query is a string and [findNotes] returns no
    identifier, the search tool returns the text "No cards found
    matching the query.", not flagged as an error, and the only call
    made is the one of [findNotes]: [notesInfo] is never asked. *)
Theorem search_no_match
    (a : AnkiMCPServer) (args : gmap string Any) (tr tr' : Trace) (query : string) :
  asString (args !! "query") = Some query ->
  FindNotes (ankiClient a) query tr = (Ok [], tr') ->
  handleSearchCards a args tr
  = (Returned {| Content := [ {| ContentType := "text";
                                 Text := "No cards found matching the query." |} ];
                 IsError := false |} None, tr')
  /\ snd (handleSearchCards a args tr)
     = tr ++ [callOf (ankiClient a) "findNotes" (PStringMap {[ "query" := query ]})].
Proof.
  intros Hq Hfind.
  assert (Htr : tr' = tr ++ [callOf (ankiClient a) "findNotes"
                               (PStringMap {[ "query" := query ]})]).
  { change tr' with (snd (Ok (@nil Z), tr')). rewrite <- Hfind. reflexivity. }
  assert (Hrun : handleSearchCards a args tr
                 = (Returned (textResult "No cards found matching the query.") None, tr')).
  { unfold handleSearchCards. rewrite Hq. unfold bind at 1. rewrite Hfind. reflexivity. }
  split; [exact Hrun|]. rewrite Hrun. exact Htr.
Qed.

End HandlerProperties.


Lemma search_no_match_witness :
  @handleSearchCards _ (Examples.searching [] []) Examples.server
    {[ "query" := VString "deck:Spanish" ]} []
  = (Returned (textResult "No cards found matching the query.") None,
     [callOf NewAnkiConnect "findNotes"
        (PStringMap {[ "query" := "deck:Spanish" ]})]).
Proof.
  refine (proj1 (@search_no_match _ (Examples.searching [] []) Examples.server
                   {[ "query" := VString "deck:Spanish" ]} [] _ "deck:Spanish" _ _)).
  - reflexivity.
  - reflexivity.
Defined.

(** ** C2: the note of create_card *)

Section CreateCardProperties.
Context `{World}.

Lemma handleCreateCard_valid
    (a : AnkiMCPServer) (args : gmap string Any) (tr : Trace) (deck front back : string) :
  args !! "deck_name" = Some (VString deck) ->
  args !! "front" = Some (VString front) ->
  args !! "back" = Some (VString back) ->
  snd (handleCreateCard a args tr)
  = tr ++ [callOf (ankiClient a) "addNote"
             (PMap {[ "note" := PNote (basicNote deck (modelNameArg args) front back
                                         (tagsArg args)) ]})].
Proof.
  intros Hd Hf Hb. unfold handleCreateCard. rewrite Hd, Hf, Hb. reflexivity.
Qed.

(** C2, amended. When deck_name, front and back are strings, create_card
    makes exactly one call, [addNote], with a note for that deck whose
    fields are Front and Back with the contents supplied and nothing
    else, whose allowDuplicate option is false, and whose tags are the
    string elements of the tags argument in their order: all of them when
    every element is a string, none when the argument is missing or not
    an array.  When deck_name, front or back is missing or not a string,
    the handler returns the error result "... is required and must be a
    string" and makes no call. *)
Theorem create_card_builds_note
    (a : AnkiMCPServer) (args : gmap string Any) (tr : Trace) :
  (forall deck front back,
      args !! "deck_name" = Some (VString deck) ->
      args !! "front" = Some (VString front) ->
      args !! "back" = Some (VString back) ->
      exists note,
        snd (handleCreateCard a args tr)
        = tr ++ [callOf (ankiClient a) "addNote" (PMap {[ "note" := PNote note ]})]
        /\ DeckName note = deck
        /\ Fields note = {[ "Front" := front; "Back" := back ]}
        /\ dom (Fields note) = ({[ "Front"; "Back" ]} : gset string)
        /\ Options note = {[ "allowDuplicate" := VBool false ]}
        /\ (forall l, args !! "tags" = Some (VSlice l) ->
              VString <$> Tags note = List.filter isString l)
        /\ (forall ts, args !! "tags" = Some (VSlice (VString <$> ts)) -> Tags note = ts)
        /\ (asSlice (args !! "tags") = None -> Tags note = []))
  /\ (asString (args !! "deck_name") = None
      \/ asString (args !! "front") = None
      \/ asString (args !! "back") = None ->
      exists field,
        In field ["deck_name"; "front"; "back"]
        /\ handleCreateCard a args tr
           = (Returned (errorResult (field +:+ " is required and must be a string")) None, tr)).
Proof.
  split.
  - intros deck front back Hd Hf Hb.
    exists (basicNote deck (modelNameArg args) front back (tagsArg args)).
    split; [now apply handleCreateCard_valid|].
    repeat split.
    + intros l Hl. cbn. unfold tagsArg. rewrite Hl. cbn. apply stringElems_filter.
    + intros ts Hts. cbn. unfold tagsArg. rewrite Hts. cbn. apply stringElems_strings.
    + intros Hnone. cbn. unfold tagsArg. now rewrite Hnone.
  - intros Hbad. unfold handleCreateCard.
    destruct (asString (args !! "deck_name")) as [deck|].
    2:{ exists "deck_name". split; [cbn; tauto | reflexivity]. }
    destruct (asString (args !! "front")) as [front|].
    2:{ exists "front". split; [cbn; tauto | reflexivity]. }
    destruct (asString (args !! "back")) as [back|].
    2:{ exists "back". split; [cbn; tauto | reflexivity]. }
    destruct Hbad as [Hbad|[Hbad|Hbad]]; discriminate.
Qed.

End CreateCardProperties.

(** The arguments of the example of the usage notes, and the same with a
    number among the tags. *)
Lemma create_card_builds_note_witness :
  exists note,
    snd (@handleCreateCard _ Examples.accepting Examples.server
           {[ "deck_name" := VString "Spanish"; "front" := VString "Hola";
              "back" := VString "Hello";
              "tags" := VSlice [VString "vocabulary"; VString "greetings"] ]} [])
    = [callOf NewAnkiConnect "addNote" (PMap {[ "note" := PNote note ]})]
    /\ Fields note = {[ "Front" := "Hola"; "Back" := "Hello" ]}
    /\ Tags note = ["vocabulary"; "greetings"].
Proof.
  pose proof (proj1 (@create_card_builds_note _ Examples.accepting Examples.server
                     {[ "deck_name" := VString "Spanish"; "front" := VString "Hola";
                        "back" := VString "Hello";
                        "tags" := VSlice [VString "vocabulary"; VString "greetings"] ]} [])
              "Spanish" "Hola" "Hello") as Hnote.
  destruct Hnote as (note & Htrace & _ & Hfields & _ & _ & _ & Hall & _); [reflexivity..|].
  exists note. split; [exact Htrace|]. split; [exact Hfields|].
  apply Hall. reflexivity.
Defined.

(** C2 as stated fails: with the tags "a", 5, "b" the note submitted
    carries the tags "a", "b", which is not the list that was given. *)
Lemma create_card_tags_counterexample :
  let tags := [VString "a"; Examples.num 5; VString "b"] in
  exists note,
    snd (@handleCreateCard _ Examples.accepting Examples.server
           {[ "deck_name" := VString "Spanish"; "front" := VString "Hola";
              "back" := VString "Hello"; "tags" := VSlice tags ]} [])
    = [callOf NewAnkiConnect "addNote" (PMap {[ "note" := PNote note ]})]
    /\ Tags note = ["a"; "b"]
    /\ VString <$> Tags note <> tags.
Proof.
  exists (basicNote "Spanish" "Basic" "Hola" "Hello" ["a"; "b"]).
  split; [vm_compute; reflexivity|]. split; [reflexivity|]. discriminate.
Qed.

(** ** C4 and C8: media payload resolution *)

Lemma push_length (c : ascii) (parts : list string) :
  parts <> [] -> length (Strings.push c parts) = length parts.
Proof. destruct parts; [congruence | reflexivity]. Qed.

Lemma splitFrom_nonempty (sep s : string) (skip : nat) :
  Strings.splitFrom sep s skip <> [].
Proof.
  revert skip. induction s as [|a s IH]; intros skip; cbn -[String.prefix]; [discriminate|].
  destruct skip; [|apply IH].
  destruct (String.prefix sep (String a s)); [discriminate|].
  specialize (IH 0%nat). destruct (Strings.splitFrom sep s 0); [congruence | discriminate].
Qed.

Lemma splitFrom_byte (c a : ascii) (s : string) :
  Strings.splitFrom (String c EmptyString) (String a s) 0
  = if Ascii.eqb c a
    then EmptyString :: Strings.splitFrom (String c EmptyString) s 0
    else Strings.push a (Strings.splitFrom (String c EmptyString) s 0).
Proof.
  change (Strings.splitFrom (String c EmptyString) (String a s) 0)
    with (if String.prefix (String c EmptyString) (String a s)
          then EmptyString :: Strings.splitFrom (String c EmptyString) s 0
          else Strings.push a (Strings.splitFrom (String c EmptyString) s 0)).
  now rewrite prefix_single.
Qed.

Lemma split_length (c : ascii) (s : string) :
  length (Strings.Split s (String c EmptyString)) = S (countByte c s).
Proof.
  unfold Strings.Split. induction s as [|a s IH]; [reflexivity|].
  rewrite splitFrom_byte. cbn [countByte].
  destruct (Ascii.eqb c a).
  - cbn. now rewrite IH.
  - rewrite push_length by apply splitFrom_nonempty. exact IH.
Qed.

Lemma split_no_separator (c : ascii) (s : string) :
  countByte c s = 0%nat -> Strings.Split s (String c EmptyString) = [s].
Proof.
  unfold Strings.Split. induction s as [|a s IH]; [reflexivity|].
  rewrite splitFrom_byte. cbn [countByte].
  destruct (Ascii.eqb c a); [discriminate|].
  intros Hs. now rewrite IH.
Qed.

Lemma split_at_first (c : ascii) (head rest : string) :
  countByte c head = 0%nat ->
  Strings.Split (head +:+ String c rest) (String c EmptyString)
  = head :: Strings.Split rest (String c EmptyString).
Proof.
  unfold Strings.Split. induction head as [|a head IH].
  - intros _. change (EmptyString +:+ String c rest) with (String c rest).
    rewrite splitFrom_byte. now rewrite Ascii.eqb_refl.
  - change (String a head +:+ String c rest) with (String a (head +:+ String c rest)).
    rewrite splitFrom_byte. cbn [countByte].
    destruct (Ascii.eqb c a); [discriminate|].
    intros Hh. now rewrite IH.
Qed.

Section MediaProperties.
Context `{World}.

(** C4, amended. For a string that starts with "data:", resolution
    splits it at its commas: when there is exactly one, the portion after
    it is the payload; it fails with the format error exactly when the
    number of commas is not one, so also when there are several. *)
Theorem data_uri_payload (data : string) :
  Strings.HasPrefix data "data:" = true ->
  (forall head payload,
      data = head +:+ "," +:+ payload ->
      countByte "," head = 0%nat ->
      countByte "," payload = 0%nat ->
      Resolving.processMediaData data = Ok payload)
  /\ (Resolving.processMediaData data = Fail "invalid data URI format"
      <-> countByte "," data <> 1%nat)
  /\ (countByte "," data = 1%nat ->
      exists payload, Resolving.processMediaData data = Ok payload).
Proof.
  intros Hprefix. unfold Resolving.processMediaData. rewrite Hprefix.
  pose proof (split_length "," data) as Hlen.
  split; [|split].
  - intros head payload -> Hhead Hpayload.
    change (head +:+ "," +:+ payload) with (head +:+ String "," payload).
    rewrite split_at_first by exact Hhead.
    now rewrite split_no_separator by exact Hpayload.
  - destruct (Strings.Split data ",") as [|p0 [|p1 [|p2 parts]]]; cbn in Hlen;
      split; intros Hx; try reflexivity; try discriminate; try lia.
  - intros Hone. rewrite Hone in Hlen.
    destruct (Strings.Split data ",") as [|p0 [|p1 [|p2 parts]]]; try discriminate.
    now exists p1.
Qed.

(** C8. A string that does not start with "data:" and that has no path
    separator, or contains "base64,", or names no file-system entry, is
    returned unchanged; resolving the result again gives the same. *)
Theorem pass_through_idempotent (data : string) :
  Strings.HasPrefix data "data:" = false ->
  (Strings.Contains data "/" = false /\ Strings.Contains data backslash = false)
  \/ Strings.Contains data "base64," = true
  \/ os_Stat data = false ->
  Resolving.processMediaData data = Ok data
  /\ resolveTwice data = Resolving.processMediaData data.
Proof.
  intros Hprefix Hpass.
  assert (Honce : Resolving.processMediaData data = Ok data).
  { unfold Resolving.processMediaData. rewrite Hprefix.
    destruct Hpass as [[Hslash Hback]|[Hmarker|Hstat]].
    - now rewrite Hslash, Hback.
    - rewrite Hmarker. now rewrite andb_false_r.
    - rewrite Hstat. now destruct (_ && _). }
  split; [exact Honce|]. unfold resolveTwice. now rewrite Honce.
Qed.

End MediaProperties.

Lemma data_uri_payload_witness :
  @Resolving.processMediaData _ Examples.twoDecks "data:image/png;base64,AAAA" = Ok "AAAA".
Proof.
  refine (proj1 (@data_uri_payload _ Examples.twoDecks "data:image/png;base64,AAAA" _)
            "data:image/png;base64" "AAAA" _ _ _); reflexivity.
Defined.

(** C4 as stated fails: a data URI with two commas is rejected, although
    it has a comma and a portion after the first one. *)
Lemma data_uri_two_commas_counterexample :
  Strings.HasPrefix "data:text/plain,Hello,World" "data:" = true
  /\ Strings.Contains "data:text/plain,Hello,World" "," = true
  /\ @Resolving.processMediaData _ Examples.twoDecks "data:text/plain,Hello,World"
     = Fail "invalid data URI format".
Proof. repeat split. Qed.

Lemma pass_through_idempotent_witness :
  @Resolving.processMediaData _ Examples.twoDecks "QUJD" = Ok "QUJD"
  /\ @resolveTwice _ Examples.twoDecks "QUJD"
     = @Resolving.processMediaData _ Examples.twoDecks "QUJD".
Proof.
  refine (@pass_through_idempotent _ Examples.twoDecks "QUJD" _ _).
  - reflexivity.
  - left. split; reflexivity.
Defined.

(** ** C3, C5 and C6: the search *)

Section SearchProperties.
Context `{World}.



Lemma truncateIDs_smaller (noteIDs : list Z) (limit : Z) :
  0 < limit < Z.of_nat (length noteIDs) ->
  truncateIDs noteIDs limit = take (Z.to_nat limit) noteIDs
  /\ Z.of_nat (length (truncateIDs noteIDs limit)) = limit.
Proof.
  intros Hlimit. unfold truncateIDs.
  destruct (Z.gtb_spec (Z.of_nat (length noteIDs)) limit); [|lia].
  split; [reflexivity|]. rewrite length_take. lia.
Qed.

Lemma summaries_in_range (noteIDs : list Z) (notesInfo : list (gmap string Any)) :
  forall (i : nat) (results : list string),
    (i + length notesInfo <= length noteIDs)%nat ->
    summaries noteIDs i notesInfo results
    = inr (results ++ rendered (drop i noteIDs) notesInfo).
Proof.
  induction notesInfo as [|noteInfo rest IH]; intros i results Hlen.
  - cbn. unfold rendered. rewrite zip_with_nil_r. cbn. now rewrite app_nil_r.
  - cbn [summaries]. cbn in Hlen.
    destruct (lookup_lt_is_Some_2 noteIDs i ltac:(lia)) as [noteID Hid].
    rewrite Hid. rewrite IH by lia.
    rewrite (drop_S _ _ _ Hid). unfold rendered. cbn.
    destruct (noteSummary noteID noteInfo); [now rewrite <- app_assoc | reflexivity].
Qed.

Lemma summaries_out_of_range (noteIDs : list Z) (notesInfo : list (gmap string Any)) :
  forall (i : nat) (results : list string),
    (i <= length noteIDs < i + length notesInfo)%nat ->
    summaries noteIDs i notesInfo results
    = inl (IndexOutOfRange (Z.of_nat (length noteIDs)) (Z.of_nat (length noteIDs))).
Proof.
  induction notesInfo as [|noteInfo rest IH]; intros i results Hlen.
  - cbn in Hlen. lia.
  - cbn [summaries]. cbn in Hlen.
    destruct (noteIDs !! i) as [noteID|] eqn:Hid.
    + apply lookup_lt_Some in Hid. apply IH. lia.
    + apply lookup_ge_None in Hid. now replace i with (length noteIDs) by lia.
Qed.

Lemma rendered_length (noteIDs : list Z) (notesInfo : list (gmap string Any)) :
  (length notesInfo <= length noteIDs)%nat ->
  length (rendered noteIDs notesInfo) = length (List.filter hasFields notesInfo).
Proof.
  revert noteIDs. induction notesInfo as [|noteInfo rest IH]; intros noteIDs Hlen.
  - unfold rendered. now rewrite zip_with_nil_r.
  - destruct noteIDs as [|noteID noteIDs]; cbn in Hlen; [lia|].
    unfold rendered. cbn. fold (rendered noteIDs rest).
    unfold noteSummary, hasFields.
    destruct (asMap (noteInfo !! "fields")); cbn; rewrite IH by lia; reflexivity.
Qed.

(** What the search returns once both calls have succeeded. *)
Lemma handleSearchCards_found
    (a : AnkiMCPServer) (args : gmap string Any) (tr tr1 tr2 : Trace) (query : string)
    (noteIDs : list Z) (notesInfo : list (gmap string Any)) :
  asString (args !! "query") = Some query ->
  FindNotes (ankiClient a) query tr = (Ok noteIDs, tr1) ->
  noteIDs <> [] ->
  GetNotesInfo (ankiClient a) (truncateIDs noteIDs (limitArg args)) tr1 = (Ok notesInfo, tr2) ->
  handleSearchCards a args tr
  = (match summaries (truncateIDs noteIDs (limitArg args)) 0 notesInfo [] with
     | inl p => Panicked p
     | inr results =>
         Returned (textResult (foundText (length (truncateIDs noteIDs (limitArg args)))
                                 results)) None
     end, tr2).
Proof.
  intros Hq Hfind Hids Hinfo. unfold handleSearchCards. rewrite Hq.
  unfold bind at 1. rewrite Hfind.
  destruct noteIDs as [|noteID noteIDs]; [congruence|].
  change (Z.of_nat (length (noteID :: noteIDs)) =? 0) with false. cbv iota.
  unfold bind, ret. rewrite Hinfo. reflexivity.
Qed.

Lemma fieldValue_reads (fields : gmap string Any) (name : string) :
  fieldReads fields name (fieldValue fields name).
Proof.
  unfold fieldReads, fieldValue. split; [|split].
  - intros field value Hfield Hvalue. rewrite Hfield. cbn. now rewrite Hvalue.
  - intros Hnone. destruct (fields !! name) as [[]|]; try reflexivity.
    now destruct (Hnone m).
  - intros field Hfield Hnone. rewrite Hfield. cbn.
    destruct (field !! "value") as [[]|]; try reflexivity. now destruct (Hnone s).
Qed.

Lemma noteTags_read (noteInfo : gmap string Any) :
  tagsRead noteInfo
    match asSlice (noteInfo !! "tags") with
    | Some tagsInterface => stringElems tagsInterface
    | None => []
    end.
Proof.
  unfold tagsRead. split.
  - intros l ->. cbn. apply stringElems_filter.
  - intros Hnone. destruct (noteInfo !! "tags") as [[]|]; try reflexivity.
    now destruct (Hnone l).
Qed.

(** C6, amended. Once [findNotes] and [notesInfo] have succeeded, and
    [notesInfo] has returned no more note objects than identifiers were
    asked for, the search returns a success text with one entry for each
    note object whose "fields" entry is an object, in order, each under
    the identifier at its position; a note object whose "fields" entry is
    missing or is not an object gives no entry.  An entry reads "ID: <id>",
    "Front: <front>", "Back: <back>" on three lines, where Front and Back
    each show the string under "value" of their own field object, or the
    empty string when that field is missing or malformed, whatever the
    other one holds; a fourth line "Tags: ..." lists the string elements
    of the tag list, separated by ", ", and is there only when there is
    such an element: missing or malformed tags give no "Tags" line. *)
Theorem search_rendering_degrades
    (a : AnkiMCPServer) (args : gmap string Any) (tr tr1 tr2 : Trace) (query : string)
    (noteIDs : list Z) (notesInfo : list (gmap string Any)) :
  asString (args !! "query") = Some query ->
  FindNotes (ankiClient a) query tr = (Ok noteIDs, tr1) ->
  noteIDs <> [] ->
  GetNotesInfo (ankiClient a) (truncateIDs noteIDs (limitArg args)) tr1 = (Ok notesInfo, tr2) ->
  (length notesInfo <= length (truncateIDs noteIDs (limitArg args)))%nat ->
  handleSearchCards a args tr
  = (Returned
       {| Content :=
            [ {| ContentType := "text";
                 Text := "Found "
                         +:+ Fmt.d (Z.of_nat (length (truncateIDs noteIDs (limitArg args))))
                         +:+ " cards (showing "
                         +:+ Fmt.d (Z.of_nat
                                      (length (rendered (truncateIDs noteIDs (limitArg args))
                                                 notesInfo)))
                         +:+ "):" +:+ nl +:+ nl
                         +:+ Strings.Join
                               (rendered (truncateIDs noteIDs (limitArg args)) notesInfo)
                               (nl +:+ nl +:+ "---" +:+ nl +:+ nl) |} ];
          IsError := false |} None, tr2)
  /\ length (rendered (truncateIDs noteIDs (limitArg args)) notesInfo)
     = length (List.filter hasFields notesInfo)
  /\ (forall noteID noteInfo,
        noteSummary noteID noteInfo = None
        <-> forall fields, noteInfo !! "fields" <> Some (VMap fields))
  /\ (forall noteID noteInfo fields,
        noteInfo !! "fields" = Some (VMap fields) ->
        exists front back tags,
          noteSummary noteID noteInfo
          = Some match tags with
                 | [] =>
                     "ID: " +:+ Fmt.d noteID +:+ nl +:+ "Front: " +:+ front
                     +:+ nl +:+ "Back: " +:+ back
                 | _ :: _ =>
                     ("ID: " +:+ Fmt.d noteID +:+ nl +:+ "Front: " +:+ front
                      +:+ nl +:+ "Back: " +:+ back)
                     +:+ nl +:+ "Tags: " +:+ Strings.Join tags ", "
                 end
          /\ fieldReads fields "Front" front
          /\ fieldReads fields "Back" back
          /\ tagsRead noteInfo tags)
  /\ (forall noteID noteInfo fields,
        asMap (noteInfo !! "fields") = Some fields ->
        (asMap (fields !! "Front") = None
         \/ exists field, asMap (fields !! "Front") = Some field
                          /\ asString (field !! "value") = None) ->
        (asMap (fields !! "Back") = None
         \/ exists field, asMap (fields !! "Back") = Some field
                          /\ asString (field !! "value") = None) ->
        asSlice (noteInfo !! "tags") = None ->
        noteSummary noteID noteInfo
        = Some ("ID: " +:+ Fmt.d noteID +:+ nl +:+ "Front: " +:+ nl +:+ "Back: ")).
Proof.
  intros Hq Hfind Hids Hinfo Hlen. split; [|split; [|split; [|split]]].
  - rewrite (handleSearchCards_found _ _ _ _ _ _ _ _ Hq Hfind Hids Hinfo).
    now rewrite summaries_in_range by (cbn; lia).
  - now apply rendered_length.
  - intros noteID noteInfo. unfold noteSummary.
    destruct (noteInfo !! "fields") as [[]|]; cbn; split; try discriminate; try reflexivity.
    intros Hnone. now destruct (Hnone m).
  - intros noteID noteInfo fields Hfields.
    exists (fieldValue fields "Front"), (fieldValue fields "Back"),
      match asSlice (noteInfo !! "tags") with
      | Some tagsInterface => stringElems tagsInterface
      | None => []
      end.
    split; [|split; [apply fieldValue_reads | split; [apply fieldValue_reads
                                                      | apply noteTags_read]]].
    unfold noteSummary. rewrite Hfields. cbn [asMap].
    destruct (match asSlice (noteInfo !! "tags") with
              | Some tagsInterface => stringElems tagsInterface
              | None => []
              end) as [|tag tags]; [reflexivity|].
    destruct (Z.gtb_spec (Z.of_nat (length (tag :: tags))) 0) as [_|Hle];
      [reflexivity | cbn in Hle; lia].
  - intros noteID noteInfo fields Hfields Hfront Hback Htags.
    unfold noteSummary, fieldValue.
    rewrite Hfields, Htags.
    assert (Hf : match asMap (fields !! "Front") with
                 | Some field => match asString (field !! "value") with
                                 | Some value => value
                                 | None => EmptyString
                                 end
                 | None => EmptyString
                 end = EmptyString).
    { destruct Hfront as [->|(field & -> & ->)]; reflexivity. }
    assert (Hb : match asMap (fields !! "Back") with
                 | Some field => match asString (field !! "value") with
                                 | Some value => value
                                 | None => EmptyString
                                 end
                 | None => EmptyString
                 end = EmptyString).
    { destruct Hback as [->|(field & -> & ->)]; reflexivity. }
    rewrite Hf, Hb. reflexivity.
Qed.

(** The count printed after "Found" is the number of identifiers kept
    after truncation: with a limit below the number of matches it is the
    limit, whatever the number of matches. *)
Lemma search_reports_retained_count
    (a : AnkiMCPServer) (args : gmap string Any) (tr tr1 tr2 : Trace) (query : string)
    (noteIDs : list Z) (notesInfo : list (gmap string Any)) :
  asString (args !! "query") = Some query ->
  FindNotes (ankiClient a) query tr = (Ok noteIDs, tr1) ->
  0 < limitArg args < Z.of_nat (length noteIDs) ->
  GetNotesInfo (ankiClient a) (truncateIDs noteIDs (limitArg args)) tr1 = (Ok notesInfo, tr2) ->
  (length notesInfo <= Z.to_nat (limitArg args))%nat ->
  fst (handleSearchCards a args tr)
  = Returned (textResult
                (foundText (Z.to_nat (limitArg args))
                   (rendered (take (Z.to_nat (limitArg args)) noteIDs) notesInfo))) None.
Proof.
  intros Hq Hfind Hlimit Hinfo Hlen.
  destruct (truncateIDs_smaller noteIDs (limitArg args) Hlimit) as [Htake Hkept].
  assert (Hids : noteIDs <> []) by (intros ->; cbn in Hlimit; lia).
  rewrite (handleSearchCards_found _ _ _ _ _ _ _ _ Hq Hfind Hids Hinfo).
  rewrite summaries_in_range by (cbn; lia).
  cbn [fst drop app]. rewrite Htake at 2. do 3 f_equal. lia.
Qed.

(** An answer of [notesInfo] longer than the list of identifiers asked
    for makes the loop index past the end of [noteIDs]. *)
Lemma search_panics_on_longer_answer
    (a : AnkiMCPServer) (args : gmap string Any) (tr tr1 tr2 : Trace) (query : string)
    (noteIDs : list Z) (notesInfo : list (gmap string Any)) :
  asString (args !! "query") = Some query ->
  FindNotes (ankiClient a) query tr = (Ok noteIDs, tr1) ->
  noteIDs <> [] ->
  GetNotesInfo (ankiClient a) (truncateIDs noteIDs (limitArg args)) tr1 = (Ok notesInfo, tr2) ->
  (length (truncateIDs noteIDs (limitArg args)) < length notesInfo)%nat ->
  fst (handleSearchCards a args tr)
  = Panicked (IndexOutOfRange
                (Z.of_nat (length (truncateIDs noteIDs (limitArg args))))
                (Z.of_nat (length (truncateIDs noteIDs (limitArg args))))).
Proof.
  intros Hq Hfind Hids Hinfo Hlen.
  rewrite (handleSearchCards_found _ _ _ _ _ _ _ _ Hq Hfind Hids Hinfo).
  now rewrite summaries_out_of_range by (cbn; lia).
Qed.

End SearchProperties.

(** A note object whose Back is a number and whose tags hold a number is
    still rendered: Front as given, Back empty, the string tag alone. *)
Lemma search_rendering_degrades_witness :
  fst (@handleSearchCards _
         (Examples.searching [101]
            [VMap {[ "fields" := VMap {[ "Front" := VMap {[ "value" := VString "Hola" ]};
                                         "Back" := Examples.num 5 ]};
                     "tags" := VSlice [VString "a"; Examples.num 7] ]}])
         Examples.server {[ "query" := VString "deck:Spanish" ]} [])
  = Returned (textResult ("Found 1 cards (showing 1):" +:+ nl +:+ nl
                          +:+ "ID: 101" +:+ nl +:+ "Front: Hola" +:+ nl +:+ "Back: "
                          +:+ nl +:+ "Tags: a")) None.
Proof.
  assert (Hsearch := @search_rendering_degrades _
                (Examples.searching [101]
                   [VMap {[ "fields" := VMap {[ "Front" := VMap {[ "value" := VString "Hola" ]};
                                                "Back" := Examples.num 5 ]};
                            "tags" := VSlice [VString "a"; Examples.num 7] ]}])
                Examples.server {[ "query" := VString "deck:Spanish" ]} []
                [callOf NewAnkiConnect "findNotes" (PStringMap {[ "query" := "deck:Spanish" ]})]
                [callOf NewAnkiConnect "findNotes" (PStringMap {[ "query" := "deck:Spanish" ]});
                 callOf NewAnkiConnect "notesInfo" (PMap {[ "notes" := PInt64s [101] ]})]
                "deck:Spanish" [101]
                [ {[ "fields" := VMap {[ "Front" := VMap {[ "value" := VString "Hola" ]};
                                         "Back" := Examples.num 5 ]};
                     "tags" := VSlice [VString "a"; Examples.num 7] ]} ]).
  destruct Hsearch as [Hrun _].
  - reflexivity.
  - reflexivity.
  - discriminate.
  - reflexivity.
  - vm_compute. lia.
  - rewrite Hrun. reflexivity.
Defined.

(** C6 as stated fails: [notesInfo] answers with one note object, an
    empty one, and no summary entry is rendered for it. *)
Lemma search_skips_note_counterexample :
  fst (@handleSearchCards _ (Examples.searching [101] [VMap ∅])
         Examples.server {[ "query" := VString "deck:Spanish" ]} [])
  = Returned (textResult ("Found 1 cards (showing 0):" +:+ nl +:+ nl)) None
  /\ @rendered Examples.intFloat [101] [∅] = [].
Proof. split; reflexivity. Qed.

(** C3, on the code: two notes match, the limit is 1, one note is shown,
    and the text reports one card found, not two. *)
Lemma search_found_count_truncated :
  fst (@handleSearchCards _
         (Examples.searching [101; 102] [Examples.noteInfo "Hola" "Hello" []])
         Examples.server
         {[ "query" := VString "deck:Spanish"; "limit" := VString "1" ]} [])
  = Returned (textResult ("Found 1 cards (showing 1):" +:+ nl +:+ nl
                          +:+ "ID: 101" +:+ nl +:+ "Front: Hola" +:+ nl +:+ "Back: Hello"))
      None.
Proof. reflexivity. Qed.

(** C5, on the code: [notesInfo] answers with two note objects where one
    was asked for, and the handler panics on the second. *)
Lemma search_panics :
  fst (@handleSearchCards _
         (Examples.searching [101] [Examples.noteInfo "Hola" "Hello" [];
                                    Examples.noteInfo "Adios" "Goodbye" []])
         Examples.server {[ "query" := VString "deck:Spanish" ]} [])
  = Panicked (IndexOutOfRange 1 1).
Proof. reflexivity. Qed.

(** ** C9: optional arguments *)

Ltac optional_argument :=
  let Hopt := fresh "Hopt" in
  intros ? ? ? Hopt;
  rewrite ?lookup_delete_eq; rewrite ?lookup_delete_ne by done;
  destruct Hopt as [Hopt | Hopt]; rewrite ?Hopt; reflexivity.



Section OptionalArguments.
Context `{World}.













End OptionalArguments.


(** ** The outcomes of the other handlers

    Every handler but the search returns, with a nil error, a text that is
    either a success text or an "Error: ..." text flagged as an error; the
    search does so too unless [notesInfo] answers with more note objects
    than it was asked for. *)

Ltac unfold_client :=
  unfold AddNote, GetDeckNames, CreateDeck, GetModelNames, GetModelFieldNames, Sync, Ping,
    StoreMediaFile, FindNotes, GetNotesInfo, invoke, roundTrip, bind, ret.

Ltac split_cases :=
  repeat match goal with
         | |- context [match ?x with _ => _ end] => destruct x eqn:?; cbn [fst snd]
         end.

Ltac well_formed :=
  intros; unfold wellFormed; unfold_client; cbn [fst snd]; split_cases;
  eexists; ((left; reflexivity) || (right; reflexivity)).

Section Outcomes.
Context `{World}.

Lemma fileNameOf_returns (path : string) :
  exists name, Simple.fileNameOf path = inr name.
Proof.
  unfold Simple.fileNameOf.
  pose proof (splitFrom_nonempty "/" path 0) as Hparts. fold (Strings.Split path "/") in Hparts.
  destruct (Strings.Split path "/") as [|p parts] eqn:Hsplit; [congruence|].
  change (Z.of_nat (length (p :: parts)) =? 0) with false. cbv iota.
  destruct (last (p :: parts)) as [name|] eqn:Hlast; [now exists name|].
  apply last_None in Hlast. discriminate.
Qed.

Lemma storeOptional_outcome
    (a : AnkiMCPServer) (args : gmap string Any) (key what : string) (tr : Trace) :
  (exists name, fst (Simple.storeOptional a args key what tr) = inr name)
  \/ (exists text,
        fst (Simple.storeOptional a args key what tr) = inl (Returned (errorResult text) None)).
Proof.
  unfold Simple.storeOptional.
  destruct (asString (args !! key)) as [path|]; [|left; now exists EmptyString].
  destruct (String.eqb path EmptyString); [left; now exists EmptyString|].
  destruct (fileToBase64 path) as [mediaData|err]; [|right; eexists; reflexivity].
  destruct (fileNameOf_returns path) as [name ->].
  destruct (base64_DecodeString mediaData) as [decodedData|err];
    [|right; eexists; reflexivity].
  unfold_client. cbn [fst snd].
  split_cases; first [left; eexists; reflexivity | right; eexists; reflexivity].
Qed.

Lemma bind_run {A B} (m : IO A) (k : A -> IO B) (tr : Trace) :
  bind m k tr = k (fst (m tr)) (snd (m tr)).
Proof. unfold bind. now destruct (m tr). Qed.

Lemma simple_handleCreateCard_well_formed
    (a : AnkiMCPServer) (args : gmap string Any) (tr : Trace) :
  wellFormed (fst (Simple.handleCreateCard a args tr)).
Proof.
  unfold Simple.handleCreateCard, wellFormed.
  destruct (asString (args !! "deck")); [|eexists; right; reflexivity].
  destruct (asString (args !! "front")); [|eexists; right; reflexivity].
  destruct (asString (args !! "back")); [|eexists; right; reflexivity].
  rewrite bind_run.
  destruct (storeOptional_outcome a args "image_path" "image" tr)
    as [[imageName ->]|[text ->]]; [|eexists; right; reflexivity].
  rewrite bind_run.
  destruct (storeOptional_outcome a args "front_audio_path" "front audio"
              (snd (Simple.storeOptional a args "image_path" "image" tr)))
    as [[frontAudioName ->]|[text ->]]; [|eexists; right; reflexivity].
  rewrite bind_run.
  destruct (storeOptional_outcome a args "back_audio_path" "back audio"
              (snd (Simple.storeOptional a args "front_audio_path" "front audio"
                      (snd (Simple.storeOptional a args "image_path" "image" tr)))))
    as [[backAudioName ->]|[text ->]]; [|eexists; right; reflexivity].
  unfold_client. cbn [fst snd]. split_cases;
    eexists; ((left; reflexivity) || (right; reflexivity)).
Qed.

Lemma other_handlers_well_formed :
  Forall (fun h : Handler => forall a args tr, wellFormed (fst (h a args tr))) otherHandlers.
Proof.
  unfold otherHandlers.
  repeat match goal with |- Forall _ _ => constructor end.
  - unfold handleCreateCard. well_formed.
  - unfold handleListDecks, narrowStrings. well_formed.
  - unfold handleCreateDeck, errorOf. well_formed.
  - unfold handleGetModels, narrowStrings. well_formed.
  - unfold handleGetModelFields, narrowStrings. well_formed.
  - unfold handleSync, errorOf. well_formed.
  - unfold handlePing, errorOf. well_formed.
  - unfold Inline.handleAddMedia, errorOf. well_formed.
  - unfold Inline.handleCreateCardWithMedia. well_formed.
  - unfold Resolving.handleAddMedia, errorOf. well_formed.
  - unfold Resolving.handleCreateCardWithMedia. well_formed.
  - apply simple_handleCreateCard_well_formed.
  - unfold Simple.handleListDecks, narrowStrings. well_formed.
  - unfold Simple.handleCreateDeck, errorOf. well_formed.
Qed.

Lemma handleSearchCards_outcome
    (a : AnkiMCPServer) (args : gmap string Any) (tr : Trace) :
  wellFormed (fst (handleSearchCards a args tr))
  \/ exists p, fst (handleSearchCards a args tr) = Panicked p.
Proof.
  unfold handleSearchCards, wellFormed. unfold_client. cbn [fst snd].
  split_cases;
    first [ right; eexists; reflexivity
          | left; eexists; left; reflexivity
          | left; eexists; right; reflexivity ].
Qed.

End Outcomes.

(** * Further properties of the client *)

Section WrapperProperties.
Context `{World}.

(** X1. Each wrapper of the client sends exactly one request, to the
    endpoint of the client and with its protocol version, under the
    action name and with the parameters of its remote action; the calls
    recorded before it are left as they were. *)
Theorem wrappers_send_one_request (ac : AnkiConnect) (tr : Trace) :
  snd (Ping ac tr) = tr ++ [callOf ac "version" PNil]
  /\ snd (GetDeckNames ac tr) = tr ++ [callOf ac "deckNames" PNil]
  /\ (forall name,
        snd (CreateDeck ac name tr)
        = tr ++ [callOf ac "createDeck" (PStringMap {[ "deck" := name ]})])
  /\ (forall name,
        snd (DeleteDeck ac name tr)
        = tr ++ [callOf ac "deleteDecks"
                   (PMap {[ "decks" := PStrings [name]; "cardsToo" := PBool true ]})])
  /\ (forall note,
        snd (AddNote ac note tr)
        = tr ++ [callOf ac "addNote" (PMap {[ "note" := PNote note ]})])
  /\ (forall query,
        snd (FindNotes ac query tr)
        = tr ++ [callOf ac "findNotes" (PStringMap {[ "query" := query ]})])
  /\ (forall noteID fields,
        snd (UpdateNoteFields ac noteID fields tr)
        = tr ++ [callOf ac "updateNoteFields"
                   (PMap {[ "note" := PMap {[ "id" := PInt64 noteID;
                                              "fields" := PStringMap fields ]} ]})])
  /\ (forall filename data,
        snd (StoreMediaFile ac filename data tr)
        = tr ++ [callOf ac "storeMediaFile"
                   (PMap {[ "filename" := PString filename;
                            "data" := PString (base64_EncodeToString data) ]})])
  /\ snd (Sync ac tr) = tr ++ [callOf ac "sync" PNil]
  /\ (forall noteIDs,
        snd (GetNotesInfo ac noteIDs tr)
        = tr ++ [callOf ac "notesInfo" (PMap {[ "notes" := PInt64s noteIDs ]})])
  /\ snd (GetModelNames ac tr) = tr ++ [callOf ac "modelNames" PNil]
  /\ (forall modelName,
        snd (GetModelFieldNames ac modelName tr)
        = tr ++ [callOf ac "modelFieldNames" (PStringMap {[ "modelName" := modelName ]})]).
Proof. repeat match goal with |- _ /\ _ => split end; intros; reflexivity. Qed.

(** X2. [invoke] returns a result only for a decoded envelope whose error
    field is empty, and then it is the result field; when marshalling,
    posting, reading or unmarshalling fails, or the envelope carries an
    error, it fails with the message of that step. *)
Theorem invoke_result_iff
    (ac : AnkiConnect) (action : string) (params : Param) (tr : Trace) :
  (forall v,
      fst (invoke ac action params tr) = Ok v
      <-> exists resp,
            remote tr (callOf ac action params) = Decoded resp
            /\ Error resp = EmptyString /\ v = Result resp)
  /\ (forall err,
        fst (invoke ac action params tr) = Fail err
        <-> (exists e, remote tr (callOf ac action params) = MarshalFailed e
                       /\ err = "failed to marshal request: " +:+ e)
            \/ (exists e, remote tr (callOf ac action params) = PostFailed e
                          /\ err = "failed to connect to AnkiConnect: " +:+ e)
            \/ (exists e, remote tr (callOf ac action params) = ReadFailed e
                          /\ err = "failed to read response: " +:+ e)
            \/ (exists e, remote tr (callOf ac action params) = UnmarshalFailed e
                          /\ err = "failed to unmarshal response: " +:+ e)
            \/ (exists resp, remote tr (callOf ac action params) = Decoded resp
                             /\ Error resp <> EmptyString
                             /\ err = "AnkiConnect error: " +:+ Error resp)).
Proof.
  unfold invoke, bind, ret, roundTrip, callOf, wrap. cbn [fst].
  destruct (remote tr _) as [e|e|e|e|resp] eqn:Hwire.
  1-4: split; [intros v; split; [discriminate | intros (resp & Hr & _); discriminate]|];
       intros err; split;
       [ intros [= <-]; eauto 10
       | intros [(e' & Hr & ->)|[(e' & Hr & ->)|[(e' & Hr & ->)|[(e' & Hr & ->)
                |(resp & Hr & _)]]]]; congruence ].
  destruct (String.eqb_spec (Error resp) EmptyString) as [Hempty|Hfull].
  - split.
    + intros v. split.
      * intros [= <-]. now exists resp.
      * intros (resp' & [= <-] & _ & ->). reflexivity.
    + intros err. split; [discriminate|].
      intros [(e' & Hr & _)|[(e' & Hr & _)|[(e' & Hr & _)|[(e' & Hr & _)
              |(resp' & [= <-] & Hne & _)]]]]; congruence.
  - split.
    + intros v. split; [discriminate|].
      intros (resp' & [= <-] & He & _). contradiction.
    + intros err. split.
      * intros [= <-]. do 4 right. now exists resp.
      * intros [(e' & Hr & _)|[(e' & Hr & _)|[(e' & Hr & _)|[(e' & Hr & _)
                |(resp' & [= <-] & _ & ->)]]]]; congruence.
Qed.

End WrapperProperties.

Section NarrowingProperties.
Context `{World}.

Lemma stringsOf_Ok_iff (msg : GoError) (l : list Any) (names : list string) :
  stringsOf msg l = Ok names <-> l = VString <$> names.
Proof.
  split.
  - revert names. induction l as [|v l IH]; intros names Hok.
    + cbn in Hok. now injection Hok as <-.
    + destruct v; cbn in Hok; try discriminate.
      destruct (stringsOf msg l) as [out|] eqn:Hrest; [|discriminate].
      injection Hok as <-. cbn. f_equal. now apply IH.
  - intros ->. apply stringsOf_strings.
Qed.

Lemma stringsOf_Fail (msg : GoError) (l : list Any) (err : GoError) :
  stringsOf msg l = Fail err -> err = msg /\ exists v, In v l /\ isString v = false.
Proof.
  induction l as [|v l IH]; [discriminate|].
  destruct v; cbn;
    try (intros [= <-]; split; [reflexivity | eexists; split; [left; reflexivity | reflexivity]]).
  destruct (stringsOf msg l) as [out|e] eqn:Hrest; [discriminate|].
  intros [= <-]. destruct (IH eq_refl) as [-> (v & Hin & Hv)].
  split; [reflexivity|]. exists v. split; [now right | exact Hv].
Qed.

Lemma int64sOf_Ok_iff (l : list Any) (ids : list Z) :
  int64sOf l = Ok ids
  <-> exists fs, l = VFloat64 <$> fs /\ ids = int64_of_float64 <$> fs.
Proof.
  split.
  - revert ids. induction l as [|v l IH]; intros ids Hok.
    + cbn in Hok. injection Hok as <-. now exists [].
    + destruct v; cbn in Hok; try discriminate.
      destruct (int64sOf l) as [out|] eqn:Hrest; [|discriminate].
      injection Hok as <-. destruct (IH out eq_refl) as (fs & -> & ->).
      now exists (f :: fs).
  - intros (fs & -> & ->). induction fs as [|f fs IH]; [reflexivity|].
    cbn. cbn in IH. now rewrite IH.
Qed.

Lemma mapsOf_Ok_iff (l : list Any) (notes : list (gmap string Any)) :
  mapsOf l = Ok notes <-> l = VMap <$> notes.
Proof.
  split.
  - revert notes. induction l as [|v l IH]; intros notes Hok.
    + cbn in Hok. now injection Hok as <-.
    + destruct v; cbn in Hok; try discriminate.
      destruct (mapsOf l) as [out|] eqn:Hrest; [|discriminate].
      injection Hok as <-. cbn. f_equal. now apply IH.
  - intros ->. induction notes as [|n notes IH]; [reflexivity|].
    cbn. cbn in IH. now rewrite IH.
Qed.

Lemma narrowStrings_Ok_iff (msg : GoError) (v : Any) (names : list string) :
  narrowStrings msg (Ok v) = Ok names <-> v = VSlice (VString <$> names).
Proof.
  destruct v; cbn; try (split; [discriminate | discriminate]).
  rewrite stringsOf_Ok_iff. split; [now intros -> | now intros [= ->]].
Qed.

Lemma narrowStrings_Fail (msg : GoError) (v : Any) (err : GoError) :
  narrowStrings msg (Ok v) = Fail err ->
  (err = "unexpected response type" /\ forall l, v <> VSlice l)
  \/ (err = msg /\ exists l x, v = VSlice l /\ In x l /\ isString x = false).
Proof.
  destruct v; cbn; try (intros [= <-]; left; split; [reflexivity | discriminate]).
  intros Hfail. apply stringsOf_Fail in Hfail as [-> (x & Hin & Hx)].
  right. split; [reflexivity|]. now exists l, x.
Qed.

(** X3. The wrappers that expect a list of strings (deck names, model
    names, field names of a model) succeed exactly when the result is a
    list whose elements are all strings, and then return these strings in
    their order; any other result is a failure, "unexpected response
    type" when it is not a list and the wrapper's "unexpected ... type"
    when an element is not a string. *)
Theorem string_list_wrappers_narrow
    (ac : AnkiConnect) (tr tr' : Trace) (v : Any) :
  (invoke ac "deckNames" PNil tr = (Ok v, tr') ->
   (forall names, GetDeckNames ac tr = (Ok names, tr') <-> v = VSlice (VString <$> names))
   /\ (forall err, GetDeckNames ac tr = (Fail err, tr') ->
         (err = "unexpected response type" /\ forall l, v <> VSlice l)
         \/ (err = "unexpected deck name type"
             /\ exists l x, v = VSlice l /\ In x l /\ isString x = false)))
  /\ (invoke ac "modelNames" PNil tr = (Ok v, tr') ->
      (forall names, GetModelNames ac tr = (Ok names, tr') <-> v = VSlice (VString <$> names))
      /\ (forall err, GetModelNames ac tr = (Fail err, tr') ->
            (err = "unexpected response type" /\ forall l, v <> VSlice l)
            \/ (err = "unexpected model name type"
                /\ exists l x, v = VSlice l /\ In x l /\ isString x = false)))
  /\ (forall modelName,
        invoke ac "modelFieldNames" (PStringMap {[ "modelName" := modelName ]}) tr
        = (Ok v, tr') ->
        (forall names, GetModelFieldNames ac modelName tr = (Ok names, tr')
                       <-> v = VSlice (VString <$> names))
        /\ (forall err, GetModelFieldNames ac modelName tr = (Fail err, tr') ->
              (err = "unexpected response type" /\ forall l, v <> VSlice l)
              \/ (err = "unexpected field name type"
                  /\ exists l x, v = VSlice l /\ In x l /\ isString x = false))).
Proof.
  split; [|split]; [intros Hinv | intros Hinv | intros modelName Hinv];
    unfold GetDeckNames, GetModelNames, GetModelFieldNames, bind, ret; rewrite Hinv;
    (split;
     [ intros names; split;
       [ intros [= Hok]; now apply narrowStrings_Ok_iff in Hok
       | intros Hv; f_equal; now apply narrowStrings_Ok_iff ]
     | intros err [= Hfail]; now apply narrowStrings_Fail in Hfail ]).
Qed.

(** X4. [AddNote] succeeds exactly when the result is a number, and
    [FindNotes] exactly when it is a list of numbers; the identifiers
    returned are these numbers converted to [int64], in their order. *)
Theorem identifier_wrappers_narrow
    (ac : AnkiConnect) (tr tr' : Trace) (v : Any) :
  (forall note,
      invoke ac "addNote" (PMap {[ "note" := PNote note ]}) tr = (Ok v, tr') ->
      forall id, AddNote ac note tr = (Ok id, tr')
                 <-> exists f, v = VFloat64 f /\ id = int64_of_float64 f)
  /\ (forall query,
        invoke ac "findNotes" (PStringMap {[ "query" := query ]}) tr = (Ok v, tr') ->
        forall ids, FindNotes ac query tr = (Ok ids, tr')
                    <-> exists fs, v = VSlice (VFloat64 <$> fs)
                                   /\ ids = int64_of_float64 <$> fs).
Proof.
  split.
  - intros note Hinv id. unfold AddNote, bind, ret. rewrite Hinv.
    destruct v; (split; [intros [= Hid] | intros (f' & [= Hv] & Hid)]); subst; eauto.
  - intros query Hinv ids. unfold FindNotes, bind, ret. rewrite Hinv.
    destruct v;
      try (split; [intros [= Hid] | intros (fs & [= Hv] & Hid)]; fail).
    split.
    + intros [= Hok]. apply int64sOf_Ok_iff in Hok as (fs & -> & ->). now exists fs.
    + intros (fs & [= ->] & ->). f_equal. apply int64sOf_Ok_iff. now exists fs.
Qed.

(** X5. [GetNotesInfo] succeeds exactly when the result is a list whose
    elements are all objects, and returns them unchanged and in order:
    as many note objects as the add-on sent, whatever was asked for. *)
Theorem GetNotesInfo_narrows
    (ac : AnkiConnect) (noteIDs : list Z) (tr tr' : Trace) (v : Any) :
  invoke ac "notesInfo" (PMap {[ "notes" := PInt64s noteIDs ]}) tr = (Ok v, tr') ->
  forall notes, GetNotesInfo ac noteIDs tr = (Ok notes, tr') <-> v = VSlice (VMap <$> notes).
Proof.
  intros Hinv notes. unfold GetNotesInfo, bind, ret. rewrite Hinv.
  destruct v; try (split; [intros [= Hn] | intros [= Hv]]; fail).
  split.
  - intros [= Hok]. apply mapsOf_Ok_iff in Hok. now subst.
  - intros [= ->]. f_equal. now apply mapsOf_Ok_iff.
Qed.

End NarrowingProperties.

Lemma string_list_wrappers_narrow_witness :
  @GetDeckNames _ Examples.twoDecks NewAnkiConnect []
  = (Ok ["Default"; "Spanish"], [callOf NewAnkiConnect "deckNames" PNil]).
Proof.
  destruct (@string_list_wrappers_narrow _ Examples.twoDecks NewAnkiConnect []
              [callOf NewAnkiConnect "deckNames" PNil]
              (VSlice [VString "Default"; VString "Spanish"])) as [Hdecks _].
  destruct (Hdecks eq_refl) as [Hok _]. now apply Hok.
Defined.

Lemma identifier_wrappers_narrow_witness :
  @AddNote _ Examples.accepting NewAnkiConnect (basicNote "Spanish" "Basic" "Hola" "Hello" []) []
  = (Ok 1496198395707,
     [callOf NewAnkiConnect "addNote"
        (PMap {[ "note" := PNote (basicNote "Spanish" "Basic" "Hola" "Hello" []) ]})]).
Proof.
  destruct (@identifier_wrappers_narrow _ Examples.accepting NewAnkiConnect []
              [callOf NewAnkiConnect "addNote"
                 (PMap {[ "note" := PNote (basicNote "Spanish" "Basic" "Hola" "Hello" []) ]})]
              (Examples.num 1496198395707)) as [Hadd _].
  apply (Hadd _ eq_refl). now exists (1496198395707 : Z).
Defined.

Lemma GetNotesInfo_narrows_witness :
  @GetNotesInfo _ (Examples.searching [101] [Examples.noteInfo "Hola" "Hello" []])
    NewAnkiConnect [101] []
  = (Ok [ {[ "fields" := VMap {[ "Front" := VMap {[ "value" := VString "Hola" ]};
                                 "Back" := VMap {[ "value" := VString "Hello" ]} ]};
             "tags" := VSlice [] ]} ],
     [callOf NewAnkiConnect "notesInfo" (PMap {[ "notes" := PInt64s [101] ]})]).
Proof.
  apply (@GetNotesInfo_narrows _ (Examples.searching [101] [Examples.noteInfo "Hola" "Hello" []])
           NewAnkiConnect [101] [] _
           (VSlice [Examples.noteInfo "Hola" "Hello" []]) eq_refl).
  reflexivity.
Defined.

Section FailureProperties.
Context `{World}.

(** X6. A failure of [invoke] comes out of every wrapper as it is: the
    same message, nothing added, and no second attempt (the wrapper has
    made its one call). *)
Theorem wrappers_propagate_failure (ac : AnkiConnect) (tr : Trace) (err : GoError) :
  (fst (invoke ac "version" PNil tr) = Fail err -> fst (Ping ac tr) = Some err)
  /\ (fst (invoke ac "deckNames" PNil tr) = Fail err -> fst (GetDeckNames ac tr) = Fail err)
  /\ (forall name,
        fst (invoke ac "createDeck" (PStringMap {[ "deck" := name ]}) tr) = Fail err ->
        fst (CreateDeck ac name tr) = Some err)
  /\ (forall name,
        fst (invoke ac "deleteDecks"
               (PMap {[ "decks" := PStrings [name]; "cardsToo" := PBool true ]}) tr)
        = Fail err ->
        fst (DeleteDeck ac name tr) = Some err)
  /\ (forall note,
        fst (invoke ac "addNote" (PMap {[ "note" := PNote note ]}) tr) = Fail err ->
        fst (AddNote ac note tr) = Fail err)
  /\ (forall query,
        fst (invoke ac "findNotes" (PStringMap {[ "query" := query ]}) tr) = Fail err ->
        fst (FindNotes ac query tr) = Fail err)
  /\ (forall noteID fields,
        fst (invoke ac "updateNoteFields"
               (PMap {[ "note" := PMap {[ "id" := PInt64 noteID;
                                          "fields" := PStringMap fields ]} ]}) tr)
        = Fail err ->
        fst (UpdateNoteFields ac noteID fields tr) = Some err)
  /\ (forall filename data,
        fst (invoke ac "storeMediaFile"
               (PMap {[ "filename" := PString filename;
                        "data" := PString (base64_EncodeToString data) ]}) tr)
        = Fail err ->
        fst (StoreMediaFile ac filename data tr) = Some err)
  /\ (fst (invoke ac "sync" PNil tr) = Fail err -> fst (Sync ac tr) = Some err)
  /\ (forall noteIDs,
        fst (invoke ac "notesInfo" (PMap {[ "notes" := PInt64s noteIDs ]}) tr) = Fail err ->
        fst (GetNotesInfo ac noteIDs tr) = Fail err)
  /\ (fst (invoke ac "modelNames" PNil tr) = Fail err -> fst (GetModelNames ac tr) = Fail err)
  /\ (forall modelName,
        fst (invoke ac "modelFieldNames" (PStringMap {[ "modelName" := modelName ]}) tr)
        = Fail err ->
        fst (GetModelFieldNames ac modelName tr) = Fail err).
Proof.
  repeat match goal with |- _ /\ _ => split end; intros;
    unfold Ping, GetDeckNames, CreateDeck, DeleteDeck, AddNote, FindNotes, UpdateNoteFields,
      StoreMediaFile, Sync, GetNotesInfo, GetModelNames, GetModelFieldNames;
    rewrite bind_run;
    match goal with Hfail : fst _ = Fail _ |- _ => rewrite Hfail end;
    reflexivity.
Qed.

(** X7. The server built at start-up talks protocol version 6 to an
    endpoint that is never empty: the value of ANKI_CONNECT_URL when it is
    set to something, the default http://localhost:8765 otherwise; and a
    client built for a URL keeps that URL and the default version. *)
Theorem server_endpoint (getenv : string -> string) :
  Version (ankiClient (NewAnkiMCPServer getenv)) = 6
  /\ URL (ankiClient (NewAnkiMCPServer getenv)) <> EmptyString
  /\ (getenv "ANKI_CONNECT_URL" <> EmptyString ->
      URL (ankiClient (NewAnkiMCPServer getenv)) = getenv "ANKI_CONNECT_URL")
  /\ (getenv "ANKI_CONNECT_URL" = EmptyString ->
      URL (ankiClient (NewAnkiMCPServer getenv)) = "http://localhost:8765")
  /\ (forall url, URL (NewAnkiConnectWithURL url) = url
                  /\ Version (NewAnkiConnectWithURL url) = Version NewAnkiConnect).
Proof.
  unfold NewAnkiMCPServer. cbn.
  destruct (String.eqb_spec (getenv "ANKI_CONNECT_URL") EmptyString) as [Hunset|Hset].
  - repeat split; try reflexivity; try discriminate. intros Hne. contradiction.
  - repeat split; try reflexivity; try assumption. intros He. contradiction.
Qed.

End FailureProperties.

Lemma wrappers_propagate_failure_witness :
  fst (@CreateDeck _ Examples.failing NewAnkiConnect "Spanish" [])
  = Some "AnkiConnect error: deck not found".
Proof.
  destruct (@wrappers_propagate_failure _ Examples.failing NewAnkiConnect []
              "AnkiConnect error: deck not found") as (_ & _ & Hcreate & _).
  now apply Hcreate.
Defined.

Lemma server_endpoint_witness :
  URL (ankiClient (NewAnkiMCPServer
                     (fun name => if String.eqb name "ANKI_CONNECT_URL"
                                  then "http://localhost:9999" else EmptyString)))
  = "http://localhost:9999".
Proof.
  destruct (server_endpoint
              (fun name => if String.eqb name "ANKI_CONNECT_URL"
                           then "http://localhost:9999" else EmptyString))
    as (_ & _ & Hset & _).
  apply Hset. discriminate.
Defined.

(** * Further properties of the handlers *)

(** ** Declared arguments and validation *)

Ltac name_missing :=
  match goal with
  | E : asString (_ !! ?k) = None |- _ =>
      exists k; eexists; split; [cbn; tauto | split; [exact E | reflexivity]]
  end.

Ltac enforce unfold_handler :=
  let Hin := fresh "Hin" in
  let Hmiss := fresh "Hmiss" in
  unfold enforcesRequired;
  intros ? ? ? (? & Hin & Hmiss); cbn in Hin;
  repeat (destruct Hin as [<-|Hin]); try contradiction; cbn in Hmiss; cbn;
  unfold_handler;
  repeat match goal with
         | |- context [match asString (?m !! ?k) with _ => _ end] =>
             destruct (asString (m !! k)) eqn:?
         end;
  try congruence; name_missing.

Ltac declared_optional unfold_handler :=
  unfold optionalAsDeclared; cbn;
  repeat match goal with |- Forall _ _ => constructor end; cbn;
  unfold optionalString, optionalSlice; unfold_handler; optional_argument.

Section DeclaredArguments.
Context `{World}.

Lemma shared_tools_enforce_required :
  enforcesRequired listDecksTool /\ enforcesRequired createDeckTool
  /\ enforcesRequired searchCardsTool /\ enforcesRequired getModelsTool
  /\ enforcesRequired getModelFieldsTool /\ enforcesRequired syncTool
  /\ enforcesRequired pingTool.
Proof.
  repeat match goal with |- _ /\ _ => split end.
  - enforce idtac.
  - enforce ltac:(unfold handleCreateDeck).
  - enforce ltac:(unfold handleSearchCards).
  - enforce idtac.
  - enforce ltac:(unfold handleGetModelFields).
  - enforce idtac.
  - enforce idtac.
Qed.

Lemma card_tools_enforce_required :
  enforcesRequired InlineTools.createCardTool
  /\ enforcesRequired InlineTools.addMediaTool
  /\ enforcesRequired InlineTools.createCardWithMediaTool
  /\ enforcesRequired ResolvingTools.createCardTool
  /\ enforcesRequired ResolvingTools.addMediaTool
  /\ enforcesRequired ResolvingTools.createCardWithMediaTool
  /\ enforcesRequired SimpleTools.createCardTool
  /\ enforcesRequired SimpleTools.listDecksTool
  /\ enforcesRequired SimpleTools.createDeckTool.
Proof.
  repeat match goal with |- _ /\ _ => split end.
  - enforce ltac:(unfold handleCreateCard).
  - enforce ltac:(unfold Inline.handleAddMedia).
  - enforce ltac:(unfold Inline.handleCreateCardWithMedia).
  - enforce ltac:(unfold handleCreateCard).
  - enforce ltac:(unfold Resolving.handleAddMedia).
  - enforce ltac:(unfold Resolving.handleCreateCardWithMedia).
  - enforce ltac:(unfold Simple.handleCreateCard).
  - enforce idtac.
  - enforce ltac:(unfold Simple.handleCreateDeck).
Qed.

(** X8. On each of the three tool surfaces, every argument registered
    with [mcp.Required()] is a string argument and the handler of the
    tool checks it: when such an argument is missing or is not a string,
    the handler returns the error result "<name> is required..." naming a
    required argument that is indeed missing, and no request is sent. *)
Theorem required_arguments_enforced :
  Forall enforcesRequired InlineTools.registerTools
  /\ Forall enforcesRequired ResolvingTools.registerTools
  /\ Forall enforcesRequired SimpleTools.registerTools
  /\ Forall (fun t => Forall (fun p => paramType p = TString) (requiredParams t))
       (InlineTools.registerTools ++ ResolvingTools.registerTools
        ++ SimpleTools.registerTools).
Proof.
  destruct shared_tools_enforce_required as (Hl & Hd & Hs & Hm & Hf & Hy & Hp).
  destruct card_tools_enforce_required
    as (Hic & Hia & Him & Hrc & Hra & Hrm & Hsc & Hsl & Hsd).
  split; [|split; [|split]].
  - unfold InlineTools.registerTools.
    repeat match goal with |- Forall _ _ => constructor end; assumption.
  - unfold ResolvingTools.registerTools.
    repeat match goal with |- Forall _ _ => constructor end; assumption.
  - unfold SimpleTools.registerTools.
    repeat match goal with |- Forall _ _ => constructor end; assumption.
  - cbn. repeat match goal with |- Forall _ _ => constructor end; reflexivity.
Qed.

(** X9. On each of the three tool surfaces, every argument registered
    without [mcp.Required()] is optional for the handler: a string
    argument that is missing, of another type or empty, and an array
    argument that is missing, of another type or empty, lead to the same
    outcome and the same calls as the arguments without it. *)
Theorem optional_arguments_as_declared :
  Forall optionalAsDeclared InlineTools.registerTools
  /\ Forall optionalAsDeclared ResolvingTools.registerTools
  /\ Forall optionalAsDeclared SimpleTools.registerTools.
Proof.
  assert (Hnone : forall t, optionalParams t = [] -> optionalAsDeclared t).
  { intros t Ht. unfold optionalAsDeclared. rewrite Ht. constructor. }
  assert (Hcreate : optionalAsDeclared InlineTools.createCardTool
                    /\ optionalAsDeclared ResolvingTools.createCardTool).
  { split; declared_optional ltac:(unfold handleCreateCard, modelNameArg, tagsArg). }
  assert (Hsearch : optionalAsDeclared searchCardsTool).
  { declared_optional ltac:(unfold handleSearchCards, limitArg). }
  assert (Hinline : optionalAsDeclared InlineTools.createCardWithMediaTool).
  { declared_optional
      ltac:(unfold Inline.handleCreateCardWithMedia, Inline.mediaSlot, modelNameArg, tagsArg). }
  assert (Hresolving : optionalAsDeclared ResolvingTools.createCardWithMediaTool).
  { declared_optional
      ltac:(unfold Resolving.handleCreateCardWithMedia, Resolving.mediaSlot,
            modelNameArg, tagsArg). }
  assert (Hsimple : optionalAsDeclared SimpleTools.createCardTool).
  { declared_optional ltac:(unfold Simple.handleCreateCard, Simple.storeOptional, tagsArg). }
  destruct Hcreate as [Hic Hrc].
  split; [|split].
  - unfold InlineTools.registerTools.
    repeat match goal with |- Forall _ _ => constructor end;
      first [assumption | now apply Hnone].
  - unfold ResolvingTools.registerTools.
    repeat match goal with |- Forall _ _ => constructor end;
      first [assumption | now apply Hnone].
  - unfold SimpleTools.registerTools.
    repeat match goal with |- Forall _ _ => constructor end;
      first [assumption | now apply Hnone].
Qed.

End DeclaredArguments.

Lemma required_arguments_enforced_witness :
  exists key rest,
    In key ["deck_name"]
    /\ @asString Examples.intFloat (Inputs.deckUnderName !! key) = None
    /\ @handleCreateDeck _ Examples.accepting Examples.server Inputs.deckUnderName []
       = (Returned (errorResult (key +:+ " is required" +:+ rest)) None, []).
Proof.
  destruct (@required_arguments_enforced _ Examples.accepting) as [Hinline _].
  apply (Forall_inv (Forall_inv_tail (Forall_inv_tail Hinline))).
  exists (WithString "deck_name" true "Name of the deck to create").
  split; [left; reflexivity | reflexivity].
Defined.

Lemma optional_arguments_as_declared_witness :
  @handleSearchCards _ (Examples.searching [] []) Examples.server
    {[ "query" := VString "deck:Spanish"; "limit" := Examples.num 5 ]} []
  = @handleSearchCards _ (Examples.searching [] []) Examples.server
      (delete "limit" {[ "query" := VString "deck:Spanish"; "limit" := Examples.num 5 ]}) [].
Proof.
  destruct (@optional_arguments_as_declared _ (Examples.searching [] [])) as [Hinline _].
  pose proof (Forall_inv (Forall_inv_tail (Forall_inv_tail (Forall_inv_tail Hinline))))
    as Hsearch.
  apply (Forall_inv Hsearch). left. reflexivity.
Defined.

(** ** Tools that pass a call through *)

Section PassThroughTools.
Context `{World}.

(** X10. With a string deck_name, create_deck sends one [createDeck]
    request for that name.  An envelope with an empty error field gives
    "Successfully created deck: <name>" whatever its result field holds;
    an envelope with the error [msg] gives the error result "Failed to
    create deck: AnkiConnect error: <msg>"; an endpoint that cannot be
    reached gives an error result too, and nothing is raised. *)
Theorem create_deck_outcome
    (a : AnkiMCPServer) (args : gmap string Any) (tr : Trace) (deckName : string) :
  asString (args !! "deck_name") = Some deckName ->
  snd (handleCreateDeck a args tr)
  = tr ++ [callOf (ankiClient a) "createDeck" (PStringMap {[ "deck" := deckName ]})]
  /\ (forall resp,
        remote tr (callOf (ankiClient a) "createDeck" (PStringMap {[ "deck" := deckName ]}))
        = Decoded resp ->
        fst (handleCreateDeck a args tr)
        = if String.eqb (Error resp) EmptyString
          then Returned (textResult ("Successfully created deck: " +:+ deckName)) None
          else Returned (errorResult ("Failed to create deck: AnkiConnect error: "
                                      +:+ Error resp)) None)
  /\ (forall e,
        remote tr (callOf (ankiClient a) "createDeck" (PStringMap {[ "deck" := deckName ]}))
        = PostFailed e ->
        fst (handleCreateDeck a args tr)
        = Returned (errorResult ("Failed to create deck: failed to connect to AnkiConnect: "
                                 +:+ e)) None).
Proof.
  intros Hname. unfold handleCreateDeck. rewrite Hname.
  split; [reflexivity|].
  unfold CreateDeck, invoke, roundTrip, bind, ret, callOf. cbn [fst snd].
  split; [intros resp Hwire | intros e Hwire]; rewrite Hwire; [|reflexivity].
  now destruct (String.eqb (Error resp) EmptyString).
Qed.

(** X11. ping and sync look at none of their arguments: each sends its
    one request ("version", "sync") and reports success when [invoke]
    returns any result at all, and otherwise the error result that wraps
    the message of [invoke]. *)
Theorem ping_and_sync_outcome
    (a : AnkiMCPServer) (args : gmap string Any) (tr : Trace) :
  (snd (handlePing a args tr) = tr ++ [callOf (ankiClient a) "version" PNil]
   /\ (forall v, fst (invoke (ankiClient a) "version" PNil tr) = Ok v ->
         fst (handlePing a args tr)
         = Returned (textResult "AnkiConnect is available and responding") None)
   /\ (forall err, fst (invoke (ankiClient a) "version" PNil tr) = Fail err ->
         fst (handlePing a args tr)
         = Returned (errorResult ("AnkiConnect is not available: " +:+ err)) None))
  /\ (snd (handleSync a args tr) = tr ++ [callOf (ankiClient a) "sync" PNil]
      /\ (forall v, fst (invoke (ankiClient a) "sync" PNil tr) = Ok v ->
            fst (handleSync a args tr)
            = Returned (textResult "Successfully triggered sync with AnkiWeb") None)
      /\ (forall err, fst (invoke (ankiClient a) "sync" PNil tr) = Fail err ->
            fst (handleSync a args tr)
            = Returned (errorResult ("Failed to sync: " +:+ err)) None)).
Proof.
  split; (split; [reflexivity|]);
    unfold handlePing, handleSync, Ping, Sync; rewrite !bind_run; cbn [fst snd ret];
    (split; [intros v Hinv | intros err Hinv]; rewrite Hinv; reflexivity).
Qed.

(** X12. get_models renders "Available models (n):" and the names, one
    per line; get_model_fields, given a string model_name, asks for the
    fields of that model and renders "Fields for model '<name>' (n):" and
    the field names, one per line; [n] is the number of names. *)
Theorem models_and_fields_render
    (a : AnkiMCPServer) (args : gmap string Any) (tr tr' : Trace) (names : list string) :
  (invoke (ankiClient a) "modelNames" PNil tr = (Ok (VSlice (VString <$> names)), tr') ->
   handleGetModels a args tr
   = (Returned (textResult ("Available models (" +:+ Fmt.d (Z.of_nat (length names))
                            +:+ "):" +:+ nl +:+ Strings.Join names nl)) None, tr'))
  /\ (forall modelName,
        asString (args !! "model_name") = Some modelName ->
        invoke (ankiClient a) "modelFieldNames" (PStringMap {[ "modelName" := modelName ]}) tr
        = (Ok (VSlice (VString <$> names)), tr') ->
        handleGetModelFields a args tr
        = (Returned (textResult ("Fields for model '" +:+ modelName +:+ "' ("
                                 +:+ Fmt.d (Z.of_nat (length names))
                                 +:+ "):" +:+ nl +:+ Strings.Join names nl)) None, tr')).
Proof.
  split.
  - intros Hinv. unfold handleGetModels, GetModelNames, bind, ret. rewrite Hinv.
    unfold narrowStrings. now rewrite stringsOf_strings.
  - intros modelName Hname Hinv.
    unfold handleGetModelFields, GetModelFieldNames, bind, ret. rewrite Hname, Hinv.
    unfold narrowStrings. now rewrite stringsOf_strings.
Qed.

End PassThroughTools.

Lemma create_deck_outcome_witness :
  fst (@handleCreateDeck _ Examples.failing Examples.server
         {[ "deck_name" := VString "Spanish" ]} [])
  = Returned (errorResult "Failed to create deck: AnkiConnect error: deck not found") None.
Proof.
  destruct (@create_deck_outcome _ Examples.failing Examples.server
              {[ "deck_name" := VString "Spanish" ]} [] "Spanish")
    as (_ & Hdecoded & _); [reflexivity|].
  apply (Hdecoded {| Result := VNil; Error := "deck not found" |}). reflexivity.
Defined.

Lemma ping_and_sync_outcome_witness :
  fst (@handlePing _ Examples.failing Examples.server ∅ [])
  = Returned (errorResult "AnkiConnect is not available: AnkiConnect error: deck not found")
      None.
Proof.
  destruct (@ping_and_sync_outcome _ Examples.failing Examples.server ∅ [])
    as [(_ & _ & Hfail) _].
  now apply Hfail.
Defined.

Lemma models_and_fields_render_witness :
  @handleGetModelFields _ Examples.twoDecks Examples.server
    {[ "model_name" := VString "Basic" ]} []
  = (Returned (textResult ("Fields for model 'Basic' (2):" +:+ nl +:+ "Default"
                           +:+ nl +:+ "Spanish")) None,
     [callOf NewAnkiConnect "modelFieldNames" (PStringMap {[ "modelName" := "Basic" ]})]).
Proof.
  destruct (@models_and_fields_render _ Examples.twoDecks Examples.server
              {[ "model_name" := VString "Basic" ]} []
              [callOf NewAnkiConnect "modelFieldNames" (PStringMap {[ "modelName" := "Basic" ]})]
              ["Default"; "Spanish"]) as [_ Hfields].
  rewrite (Hfields "Basic"); reflexivity.
Defined.

(** ** The search, further *)

Section SearchLimits.
Context `{World}.

Lemma Atoi_range (s : string) (n : Z) :
  Strconv.Atoi s = Some n -> Strconv.minInt <= n <= Strconv.maxInt.
Proof.
  unfold Strconv.Atoi.
  destruct (match s with
            | String "-" r => (true, r)
            | String "+" r => (false, r)
            | _ => (false, s)
            end) as [neg ds].
  destruct ds as [|c ds]; [discriminate|].
  destruct (Strconv.digits (String c ds) 0) as [m|]; [|discriminate].
  destruct ((Strconv.minInt <=? (if neg then - m else m))
            && ((if neg then - m else m) <=? Strconv.maxInt)) eqn:Hrange; [|discriminate].
  intros [= <-]. apply andb_prop in Hrange as [Hlo Hhi].
  apply Z.leb_le in Hlo, Hhi. lia.
Qed.

Lemma limitArg_bounds (args : gmap string Any) :
  1 <= limitArg args <= Strconv.maxInt.
Proof.
  assert (Hten : 1 <= 10 <= Strconv.maxInt) by (unfold Strconv.maxInt; lia).
  unfold limitArg.
  destruct (asString (args !! "limit")) as [limitStr|]; [|exact Hten].
  destruct (String.eqb limitStr EmptyString); [exact Hten|].
  destruct (Strconv.Atoi limitStr) as [n|] eqn:Hparse; [|exact Hten].
  destruct (Z.gtb_spec n 0); [|exact Hten].
  apply Atoi_range in Hparse. lia.
Qed.

Lemma truncateIDs_take (noteIDs : list Z) (limit : Z) :
  0 < limit -> truncateIDs noteIDs limit = take (Z.to_nat limit) noteIDs.
Proof.
  intros Hpos. unfold truncateIDs.
  destruct (Z.gtb_spec (Z.of_nat (length noteIDs)) limit); [reflexivity|].
  symmetry. apply take_ge. lia.
Qed.

Lemma rendered_bound (noteIDs : list Z) (notesInfo : list (gmap string Any)) :
  (length (rendered noteIDs notesInfo) <= length notesInfo)%nat.
Proof.
  revert noteIDs. induction notesInfo as [|noteInfo rest IH]; intros noteIDs.
  - unfold rendered. now rewrite zip_with_nil_r.
  - destruct noteIDs as [|noteID noteIDs]; [cbn; lia|].
    unfold rendered. cbn. fold (rendered noteIDs rest).
    specialize (IH noteIDs).
    destruct (noteSummary noteID noteInfo); cbn; lia.
Qed.

(** X13. The effective limit of a search is always between 1 and the
    largest [int], whatever the arguments.  When [findNotes] returns
    identifiers, [notesInfo] is asked for the first ones only, at most
    the limit; and unless the handler panics, the text reports as found
    the number of identifiers asked for, and shows at most that many
    entries. *)
Theorem search_respects_limit
    (a : AnkiMCPServer) (args : gmap string Any) (tr tr1 : Trace) (query : string)
    (noteIDs : list Z) :
  asString (args !! "query") = Some query ->
  FindNotes (ankiClient a) query tr = (Ok noteIDs, tr1) ->
  noteIDs <> [] ->
  1 <= limitArg args <= Strconv.maxInt
  /\ snd (handleSearchCards a args tr)
     = tr1 ++ [callOf (ankiClient a) "notesInfo"
                 (PMap {[ "notes" := PInt64s (take (Z.to_nat (limitArg args)) noteIDs) ]})]
  /\ (forall notesInfo tr2,
        GetNotesInfo (ankiClient a) (take (Z.to_nat (limitArg args)) noteIDs) tr1
        = (Ok notesInfo, tr2) ->
        (exists p, fst (handleSearchCards a args tr) = Panicked p)
        \/ (exists results,
              fst (handleSearchCards a args tr)
              = Returned (textResult
                            (foundText (length (take (Z.to_nat (limitArg args)) noteIDs))
                               results)) None
              /\ (length results <= length (take (Z.to_nat (limitArg args)) noteIDs)
                  <= Z.to_nat (limitArg args))%nat)).
Proof.
  intros Hq Hfind Hids.
  pose proof (limitArg_bounds args) as Hlimit.
  split; [exact Hlimit|].
  assert (Hkept : truncateIDs noteIDs (limitArg args)
                  = take (Z.to_nat (limitArg args)) noteIDs)
    by (apply truncateIDs_take; lia).
  split.
  - unfold handleSearchCards. rewrite Hq. rewrite bind_run, Hfind. cbn [fst snd].
    destruct noteIDs as [|noteID noteIDs]; [congruence|].
    change (Z.of_nat (length (noteID :: noteIDs)) =? 0) with false. cbv iota.
    rewrite Hkept. reflexivity.
  - intros notesInfo tr2 Hinfo. rewrite <- Hkept in Hinfo.
    rewrite (handleSearchCards_found _ _ _ _ _ _ _ _ Hq Hfind Hids Hinfo). cbn [fst].
    rewrite Hkept.
    destruct (le_lt_dec (length notesInfo) (length (take (Z.to_nat (limitArg args)) noteIDs)))
      as [Hfits|Hlonger].
    + right. rewrite summaries_in_range by (cbn; lia). rewrite drop_0. cbn [app].
      eexists. split; [reflexivity|].
      pose proof (rendered_bound (take (Z.to_nat (limitArg args)) noteIDs) notesInfo).
      rewrite length_take in *. lia.
    + left. rewrite summaries_out_of_range by (cbn; lia). eexists. reflexivity.
Qed.

(** X14. When [findNotes] fails, the search returns the error result
    "Failed to search cards: <error>" and asks nothing more; when
    [notesInfo] fails, it returns "Failed to get note details: <error>". *)
Theorem search_failures
    (a : AnkiMCPServer) (args : gmap string Any) (tr tr1 : Trace) (query : string) :
  asString (args !! "query") = Some query ->
  (forall err,
      FindNotes (ankiClient a) query tr = (Fail err, tr1) ->
      handleSearchCards a args tr
      = (Returned (errorResult ("Failed to search cards: " +:+ err)) None, tr1)
      /\ tr1 = tr ++ [callOf (ankiClient a) "findNotes" (PStringMap {[ "query" := query ]})])
  /\ (forall noteIDs err tr2,
        FindNotes (ankiClient a) query tr = (Ok noteIDs, tr1) ->
        noteIDs <> [] ->
        GetNotesInfo (ankiClient a) (truncateIDs noteIDs (limitArg args)) tr1
        = (Fail err, tr2) ->
        handleSearchCards a args tr
        = (Returned (errorResult ("Failed to get note details: " +:+ err)) None, tr2)).
Proof.
  intros Hq. split.
  - intros err Hfind. split.
    + unfold handleSearchCards. rewrite Hq. unfold bind at 1. now rewrite Hfind.
    + change tr1 with (snd (@Fail (list Z) err, tr1)). rewrite <- Hfind. reflexivity.
  - intros noteIDs err tr2 Hfind Hids Hinfo.
    unfold handleSearchCards. rewrite Hq. unfold bind at 1. rewrite Hfind.
    destruct noteIDs as [|noteID noteIDs]; [congruence|].
    change (Z.of_nat (length (noteID :: noteIDs)) =? 0) with false. cbv iota.
    unfold bind, ret. now rewrite Hinfo.
Qed.

End SearchLimits.

Lemma search_respects_limit_witness :
  snd (@handleSearchCards _
         (Examples.searching [101; 102; 103] [Examples.noteInfo "Hola" "Hello" []])
         Examples.server
         {[ "query" := VString "deck:Spanish"; "limit" := VString "2" ]} [])
  = [callOf NewAnkiConnect "findNotes" (PStringMap {[ "query" := "deck:Spanish" ]});
     callOf NewAnkiConnect "notesInfo" (PMap {[ "notes" := PInt64s [101; 102] ]})].
Proof.
  destruct (@search_respects_limit _
              (Examples.searching [101; 102; 103] [Examples.noteInfo "Hola" "Hello" []])
              Examples.server
              {[ "query" := VString "deck:Spanish"; "limit" := VString "2" ]} []
              [callOf NewAnkiConnect "findNotes" (PStringMap {[ "query" := "deck:Spanish" ]})]
              "deck:Spanish" [101; 102; 103]) as (_ & Hcalls & _).
  - reflexivity.
  - reflexivity.
  - discriminate.
  - rewrite Hcalls. reflexivity.
Defined.

Lemma search_failures_witness :
  @handleSearchCards _ Examples.failing Examples.server
    {[ "query" := VString "deck:Spanish" ]} []
  = (Returned (errorResult "Failed to search cards: AnkiConnect error: deck not found") None,
     [callOf NewAnkiConnect "findNotes" (PStringMap {[ "query" := "deck:Spanish" ]})]).
Proof.
  destruct (@search_failures _ Examples.failing Examples.server
              {[ "query" := VString "deck:Spanish" ]} []
              [callOf NewAnkiConnect "findNotes" (PStringMap {[ "query" := "deck:Spanish" ]})]
              "deck:Spanish") as [Hfind _]; [reflexivity|].
  apply (Hfind "AnkiConnect error: deck not found"). reflexivity.
Defined.

(** ** Media payload resolution, further *)

Section ResolutionAndFiles.
Context {F : Float64} (w1 w2 : @World F).

(** X15. A string that starts with "data:", or contains "base64,", or
    has no path separator is resolved without consulting the file system
    (or anything else of the environment): the result is the same in any
    two worlds. *)
Theorem resolution_without_files (data : string) :
  Strings.HasPrefix data "data:" = true
  \/ Strings.Contains data "base64," = true
  \/ (Strings.Contains data "/" = false /\ Strings.Contains data backslash = false) ->
  @Resolving.processMediaData F w1 data = @Resolving.processMediaData F w2 data.
Proof.
  intros Hcase. unfold Resolving.processMediaData.
  destruct (Strings.HasPrefix data "data:"); [reflexivity|].
  destruct Hcase as [Hprefix|[Hmarker|[Hslash Hback]]]; [discriminate| |].
  - rewrite Hmarker. now rewrite andb_false_r.
  - now rewrite Hslash, Hback.
Qed.

End ResolutionAndFiles.

Section ResolutionOutcomes.
Context `{World}.

(** X16. Media payload resolution fails in two cases only: a string that
    starts with "data:" and does not contain exactly one comma ("invalid
    data URI format"), and a string taken for a path - it has a path
    separator, does not contain "base64," and names an existing entry -
    that cannot be read ("failed to read file <path>: <error>"). *)
Theorem resolution_fails_iff (data : string) (err : GoError) :
  Resolving.processMediaData data = Fail err
  <-> (Strings.HasPrefix data "data:" = true
       /\ countByte "," data <> 1%nat
       /\ err = "invalid data URI format")
      \/ (Strings.HasPrefix data "data:" = false
          /\ Strings.Contains data "/" || Strings.Contains data backslash = true
          /\ Strings.Contains data "base64," = false
          /\ os_Stat data = true
          /\ exists e, os_ReadFile data = Fail e
                       /\ err = "failed to read file " +:+ data +:+ ": " +:+ e).
Proof.
  unfold Resolving.processMediaData, fileToBase64.
  destruct (Strings.HasPrefix data "data:").
  - pose proof (split_length "," data) as Hlen.
    destruct (Strings.Split data ",") as [|p0 [|p1 [|p2 parts]]]; cbn in Hlen;
      [discriminate Hlen| | |].
    1,3: split;
      [ intros [= <-]; left; split; [reflexivity | split; [lia | reflexivity]]
      | intros [(_ & _ & ->)|(Hp & _)]; [reflexivity | discriminate] ].
    split; [discriminate | intros [(_ & Hn & _)|(Hp & _)]; [lia | discriminate]].
  - destruct (Strings.Contains data "/" || Strings.Contains data backslash);
      destruct (Strings.Contains data "base64,"); cbn [andb negb];
      try (split; [discriminate | intros [(Hp & _)|(_ & Hs & Hm & _)]; discriminate]).
    destruct (os_Stat data);
      [|split; [discriminate | intros [(Hp & _)|(_ & _ & _ & Hs & _)]; discriminate]].
    destruct (os_ReadFile data) as [bytes|e]; split.
    + discriminate.
    + intros [(Hp & _)|(_ & _ & _ & _ & e & Hr & _)]; discriminate.
    + intros [= <-]. right. repeat split. now exists e.
    + intros [(Hp & _)|(_ & _ & _ & _ & e' & [= <-] & ->)]; [discriminate | reflexivity].
Qed.

(** X17. A string that has a path separator, does not start with "data:",
    does not contain "base64," and names an existing, readable file is
    replaced by the base64 encoding of the bytes of that file - also when
    the string was meant as a payload. *)
Theorem existing_file_is_encoded (data : string) (bytes : list Byte.byte) :
  Strings.HasPrefix data "data:" = false ->
  Strings.Contains data "/" = true \/ Strings.Contains data backslash = true ->
  Strings.Contains data "base64," = false ->
  os_Stat data = true ->
  os_ReadFile data = Ok bytes ->
  Resolving.processMediaData data = Ok (base64_EncodeToString bytes).
Proof.
  intros Hprefix Hsep Hmarker Hstat Hread.
  unfold Resolving.processMediaData, fileToBase64.
  rewrite Hprefix, Hmarker, Hstat, Hread.
  destruct Hsep as [-> | ->]; [reflexivity | now rewrite orb_true_r].
Qed.

End ResolutionOutcomes.

Lemma resolution_without_files_witness :
  @Resolving.processMediaData _ Examples.twoDecks "data:image/png;base64,AAAA"
  = @Resolving.processMediaData _ Inputs.onDisk "data:image/png;base64,AAAA".
Proof.
  apply (@resolution_without_files _ Examples.twoDecks Inputs.onDisk). left. reflexivity.
Defined.

Lemma resolution_fails_iff_witness :
  @Resolving.processMediaData _ Inputs.onDisk "/tmp"
  = Fail "failed to read file /tmp: read /tmp: is a directory".
Proof.
  apply (@resolution_fails_iff _ Inputs.onDisk). right.
  repeat split. now exists "read /tmp: is a directory".
Defined.

Lemma existing_file_is_encoded_witness :
  @Resolving.processMediaData _ Inputs.onDisk "/tmp/hola.png" = Ok "UE5H".
Proof.
  apply (@existing_file_is_encoded _ Inputs.onDisk "/tmp/hola.png"
           [Byte.x50; Byte.x4e; Byte.x47]); try reflexivity.
  left. reflexivity.
Defined.

(** ** The media handlers *)

Section MediaHandlers.
Context `{World}.

(** X18. On an add_media call whose data resolves to itself (a payload
    that is passed through), the handler with media resolution and the
    handler without it do the same: same outcome, same call. *)
Theorem add_media_variants_agree
    (a : AnkiMCPServer) (args : gmap string Any) (tr : Trace) :
  (forall dataStr, asString (args !! "data") = Some dataStr ->
                   Resolving.processMediaData dataStr = Ok dataStr) ->
  Resolving.handleAddMedia a args tr = Inline.handleAddMedia a args tr.
Proof.
  intros Hpass. unfold Resolving.handleAddMedia, Inline.handleAddMedia.
  destruct (asString (args !! "filename")) as [filename|]; [|reflexivity].
  destruct (asString (args !! "data")) as [dataStr|]; [|reflexivity].
  now rewrite (Hpass dataStr eq_refl).
Qed.

(** X19. add_media with media resolution, given a string filename and
    string data: when the data cannot be resolved, or the resolved text
    is not valid base64, the handler returns the error result of that
    step and sends nothing; otherwise it sends one [storeMediaFile]
    request with the filename and the re-encoded bytes. *)
Theorem add_media_outcome
    (a : AnkiMCPServer) (args : gmap string Any) (tr : Trace) (filename dataStr : string) :
  asString (args !! "filename") = Some filename ->
  asString (args !! "data") = Some dataStr ->
  (forall err,
      Resolving.processMediaData dataStr = Fail err ->
      Resolving.handleAddMedia a args tr
      = (Returned (errorResult ("Failed to process media data: " +:+ err)) None, tr))
  /\ (forall processedData err,
        Resolving.processMediaData dataStr = Ok processedData ->
        base64_DecodeString processedData = Fail err ->
        Resolving.handleAddMedia a args tr
        = (Returned (errorResult ("Failed to decode base64 data: " +:+ err)) None, tr))
  /\ (forall processedData data,
        Resolving.processMediaData dataStr = Ok processedData ->
        base64_DecodeString processedData = Ok data ->
        snd (Resolving.handleAddMedia a args tr)
        = tr ++ [callOf (ankiClient a) "storeMediaFile"
                   (PMap {[ "filename" := PString filename;
                            "data" := PString (base64_EncodeToString data) ]})]).
Proof.
  intros Hname Hdata. unfold Resolving.handleAddMedia. rewrite Hname, Hdata.
  split; [|split].
  - now intros err ->.
  - now intros processedData err -> ->.
  - now intros processedData data -> ->.
Qed.

(** X20. create_card_with_media, given deck_name, front and back, and an
    audio and an image slot each with a non-empty filename and non-empty
    data: the one [addNote] request carries one audio and one picture
    descriptor with these filenames.  Without media resolution the data
    is the argument itself and the descriptor targets the field Front;
    with media resolution the data is the resolved payload and the
    descriptor names no field. *)
Theorem media_card_descriptors
    (a : AnkiMCPServer) (args : gmap string Any) (tr : Trace)
    (deck front back audioName audioData imageName imageData : string) :
  asString (args !! "deck_name") = Some deck ->
  asString (args !! "front") = Some front ->
  asString (args !! "back") = Some back ->
  asString (args !! "audio_filename") = Some audioName -> audioName <> EmptyString ->
  asString (args !! "audio_data") = Some audioData -> audioData <> EmptyString ->
  asString (args !! "image_filename") = Some imageName -> imageName <> EmptyString ->
  asString (args !! "image_data") = Some imageData -> imageData <> EmptyString ->
  snd (Inline.handleCreateCardWithMedia a args tr)
  = tr ++ [callOf (ankiClient a) "addNote"
             (PMap {[ "note" := PNote
                  {| DeckName := deck; ModelName := modelNameArg args;
                     Fields := {[ "Front" := front; "Back" := back ]};
                     Tags := tagsArg args;
                     Audio := [ {| Path := EmptyString; Filename := audioName;
                                   MediaFields := ["Front"]; Data := audioData |} ];
                     Picture := [ {| Path := EmptyString; Filename := imageName;
                                     MediaFields := ["Front"]; Data := imageData |} ];
                     Video := [];
                     Options := {[ "allowDuplicate" := VBool false ]} |} ]})]
  /\ (forall audioPayload imagePayload,
        Resolving.processMediaData audioData = Ok audioPayload ->
        Resolving.processMediaData imageData = Ok imagePayload ->
        snd (Resolving.handleCreateCardWithMedia a args tr)
        = tr ++ [callOf (ankiClient a) "addNote"
                   (PMap {[ "note" := PNote
                        {| DeckName := deck; ModelName := modelNameArg args;
                           Fields := {[ "Front" := front; "Back" := back ]};
                           Tags := tagsArg args;
                           Audio := [ {| Path := EmptyString; Filename := audioName;
                                         MediaFields := []; Data := audioPayload |} ];
                           Picture := [ {| Path := EmptyString; Filename := imageName;
                                           MediaFields := []; Data := imagePayload |} ];
                           Video := [];
                           Options := {[ "allowDuplicate" := VBool false ]} |} ]})]).
Proof.
  intros Hd Hf Hb Han Hane Had Hade Hin Hine Hid Hide.
  apply String.eqb_neq in Hane, Hade, Hine, Hide.
  split.
  - unfold Inline.handleCreateCardWithMedia, Inline.mediaSlot.
    rewrite Hd, Hf, Hb, Han, Had, Hin, Hid, Hane, Hade, Hine, Hide. reflexivity.
  - intros audioPayload imagePayload Haudio Himage.
    unfold Resolving.handleCreateCardWithMedia, Resolving.mediaSlot.
    rewrite Hd, Hf, Hb, Han, Had, Hin, Hid, Hane, Hade, Hine, Hide, Haudio, Himage.
    reflexivity.
Qed.

(** X21. create_card_with_media with media resolution creates no card
    when a media payload it should attach cannot be resolved: it returns
    "Failed to process audio data: <error>", or "Failed to process image
    data: <error>" when the audio slot is fine or unused, and sends no
    request at all. *)
Theorem media_card_failure_sends_nothing
    (a : AnkiMCPServer) (args : gmap string Any) (tr : Trace)
    (deck front back : string) :
  asString (args !! "deck_name") = Some deck ->
  asString (args !! "front") = Some front ->
  asString (args !! "back") = Some back ->
  (forall audioName audioData err,
      asString (args !! "audio_filename") = Some audioName -> audioName <> EmptyString ->
      asString (args !! "audio_data") = Some audioData -> audioData <> EmptyString ->
      Resolving.processMediaData audioData = Fail err ->
      Resolving.handleCreateCardWithMedia a args tr
      = (Returned (errorResult ("Failed to process audio data: " +:+ err)) None, tr))
  /\ (forall audio imageName imageData err,
        Resolving.mediaSlot args "audio_filename" "audio_data" = Ok audio ->
        asString (args !! "image_filename") = Some imageName -> imageName <> EmptyString ->
        asString (args !! "image_data") = Some imageData -> imageData <> EmptyString ->
        Resolving.processMediaData imageData = Fail err ->
        Resolving.handleCreateCardWithMedia a args tr
        = (Returned (errorResult ("Failed to process image data: " +:+ err)) None, tr)).
Proof.
  intros Hd Hf Hb. unfold Resolving.handleCreateCardWithMedia. rewrite Hd, Hf, Hb.
  split.
  - intros audioName audioData err Han Hane Had Hade Hfail.
    apply String.eqb_neq in Hane, Hade.
    unfold Resolving.mediaSlot at 1. now rewrite Han, Had, Hane, Hade, Hfail.
  - intros audio imageName imageData err Haudio Hin Hine Hid Hide Hfail.
    apply String.eqb_neq in Hine, Hide.
    rewrite Haudio. unfold Resolving.mediaSlot. now rewrite Hin, Hid, Hine, Hide, Hfail.
Qed.

End MediaHandlers.

Lemma add_media_variants_agree_witness :
  @Resolving.handleAddMedia _ Inputs.onDisk Examples.server
    {[ "filename" := VString "hola.png"; "data" := VString "UE5H" ]} []
  = @Inline.handleAddMedia _ Inputs.onDisk Examples.server
      {[ "filename" := VString "hola.png"; "data" := VString "UE5H" ]} [].
Proof.
  apply (@add_media_variants_agree _ Inputs.onDisk).
  intros dataStr Hdata. vm_compute in Hdata. injection Hdata as <-. reflexivity.
Defined.

Lemma add_media_outcome_witness :
  snd (@Resolving.handleAddMedia _ Inputs.onDisk Examples.server
         {[ "filename" := VString "hola.png"; "data" := VString "/tmp/hola.png" ]} [])
  = [callOf NewAnkiConnect "storeMediaFile"
       (PMap {[ "filename" := PString "hola.png"; "data" := PString "UE5H" ]})].
Proof.
  destruct (@add_media_outcome _ Inputs.onDisk Examples.server
              {[ "filename" := VString "hola.png"; "data" := VString "/tmp/hola.png" ]} []
              "hola.png" "/tmp/hola.png") as (_ & _ & Hstore); [reflexivity..|].
  apply (Hstore "UE5H" [Byte.x50; Byte.x4e; Byte.x47]); reflexivity.
Defined.

Lemma media_card_descriptors_witness :
  snd (@Inline.handleCreateCardWithMedia _ Examples.accepting Examples.server
         {[ "deck_name" := VString "Spanish"; "front" := VString "Gracias";
            "back" := VString "Thank you";
            "audio_filename" := VString "gracias.mp3"; "audio_data" := VString "QUJD";
            "image_filename" := VString "flag.png"; "image_data" := VString "UE5H" ]} [])
  = [callOf NewAnkiConnect "addNote"
       (PMap {[ "note" := PNote
            {| DeckName := "Spanish"; ModelName := "Basic";
               Fields := {[ "Front" := "Gracias"; "Back" := "Thank you" ]};
               Tags := [];
               Audio := [ {| Path := EmptyString; Filename := "gracias.mp3";
                             MediaFields := ["Front"]; Data := "QUJD" |} ];
               Picture := [ {| Path := EmptyString; Filename := "flag.png";
                               MediaFields := ["Front"]; Data := "UE5H" |} ];
               Video := [];
               Options := {[ "allowDuplicate" := VBool false ]} |} ]})].
Proof.
  pose proof (@media_card_descriptors _ Examples.accepting Examples.server
              {[ "deck_name" := VString "Spanish"; "front" := VString "Gracias";
                 "back" := VString "Thank you";
                 "audio_filename" := VString "gracias.mp3"; "audio_data" := VString "QUJD";
                 "image_filename" := VString "flag.png"; "image_data" := VString "UE5H" ]} []
              "Spanish" "Gracias" "Thank you" "gracias.mp3" "QUJD" "flag.png" "UE5H")
    as Hcard.
  destruct Hcard as [Hinline _];
    [reflexivity | reflexivity | reflexivity
     | reflexivity | discriminate | reflexivity | discriminate
     | reflexivity | discriminate | reflexivity | discriminate |].
  rewrite Hinline. reflexivity.
Defined.

Lemma media_card_failure_sends_nothing_witness :
  @Resolving.handleCreateCardWithMedia _ Inputs.onDisk Examples.server
    {[ "deck_name" := VString "Spanish"; "front" := VString "Gracias";
       "back" := VString "Thank you";
       "audio_filename" := VString "gracias.mp3"; "audio_data" := VString "/tmp" ]} []
  = (Returned (errorResult
                 "Failed to process audio data: failed to read file /tmp: read /tmp: is a directory")
       None, []).
Proof.
  destruct (@media_card_failure_sends_nothing _ Inputs.onDisk Examples.server
              {[ "deck_name" := VString "Spanish"; "front" := VString "Gracias";
                 "back" := VString "Thank you";
                 "audio_filename" := VString "gracias.mp3"; "audio_data" := VString "/tmp" ]} []
              "Spanish" "Gracias" "Thank you") as [Haudio _]; [reflexivity..|].
  apply (Haudio "gracias.mp3" "/tmp"); try reflexivity; discriminate.
Defined.

(** ** The reduced surface *)

Lemma countByte_app (c : ascii) (s t : string) :
  countByte c (s +:+ t) = (countByte c s + countByte c t)%nat.
Proof.
  induction s as [|a s IH]; [reflexivity|].
  change (String a s +:+ t) with (String a (s +:+ t)). cbn [countByte]. rewrite IH. lia.
Qed.

Lemma last_push (c : ascii) (parts : list string) :
  (2 <= length parts)%nat -> last (Strings.push c parts) = last parts.
Proof. destruct parts as [|p [|q parts]]; cbn; [lia | lia | reflexivity]. Qed.

Lemma split_last (c : ascii) (head rest : string) :
  last (Strings.Split (head +:+ String c rest) (String c EmptyString))
  = last (Strings.Split rest (String c EmptyString)).
Proof.
  unfold Strings.Split. induction head as [|a head IH].
  - change (EmptyString +:+ String c rest) with (String c rest).
    rewrite splitFrom_byte, Ascii.eqb_refl.
    pose proof (splitFrom_nonempty (String c EmptyString) rest 0) as Hne.
    now destruct (Strings.splitFrom (String c EmptyString) rest 0).
  - change (String a head +:+ String c rest) with (String a (head +:+ String c rest)).
    rewrite splitFrom_byte.
    pose proof (split_length c (head +:+ String c rest)) as Hlen.
    unfold Strings.Split in Hlen. rewrite countByte_app in Hlen.
    cbn [countByte] in Hlen. rewrite Ascii.eqb_refl in Hlen.
    destruct (Ascii.eqb c a).
    + destruct (Strings.splitFrom (String c EmptyString) (head +:+ String c rest) 0)
        as [|p parts] eqn:Hparts; [cbn in Hlen; lia|].
      exact IH.
    + rewrite last_push by lia. exact IH.
Qed.

Lemma fileNameOf_no_slash (path : string) :
  countByte "/" path = 0%nat -> Simple.fileNameOf path = inr path.
Proof.
  intros Hnone. unfold Simple.fileNameOf.
  now rewrite (split_no_separator "/" path Hnone).
Qed.

Lemma fileNameOf_last (dir name : string) :
  countByte "/" name = 0%nat ->
  Simple.fileNameOf (dir +:+ "/" +:+ name) = inr name.
Proof.
  intros Hnone. unfold Simple.fileNameOf.
  pose proof (splitFrom_nonempty "/" (dir +:+ "/" +:+ name) 0) as Hne.
  fold (Strings.Split (dir +:+ "/" +:+ name) "/") in Hne.
  pose proof (split_last "/" dir name) as Hlast.
  change (dir +:+ String "/" name) with (dir +:+ "/" +:+ name) in Hlast.
  destruct (Strings.Split (dir +:+ "/" +:+ name) "/") as [|p parts]; [congruence|].
  change (Z.of_nat (length (p :: parts)) =? 0) with false. cbv iota.
  rewrite Hlast. now rewrite (split_no_separator "/" name Hnone).
Qed.

Section SimpleSurface.
Context `{World}.

(** X22. The name under which the reduced surface stores a media file is
    the part of the path after its last slash, the whole path when it has
    no slash; indexing the last part never goes out of range.  A
    backslash does not separate: the second split of the source is never
    reached. *)
Theorem file_name_of_path :
  (forall path, exists name, Simple.fileNameOf path = inr name)
  /\ (forall path, countByte "/" path = 0%nat -> Simple.fileNameOf path = inr path)
  /\ (forall dir name,
        countByte "/" name = 0%nat ->
        Simple.fileNameOf (dir +:+ "/" +:+ name) = inr name).
Proof.
  split; [exact fileNameOf_returns|].
  split; [exact fileNameOf_no_slash | exact fileNameOf_last].
Qed.

(** X23. create_card of the reduced surface, given deck, front and back
    and none of the three media paths (each missing, not a string or
    empty), sends one request only: [addNote] with a note of the model
    "Basic" whose Front and Back are the texts as given, unchanged. *)
Theorem simple_plain_card
    (a : AnkiMCPServer) (args : gmap string Any) (tr : Trace) (deck front back : string) :
  asString (args !! "deck") = Some deck ->
  asString (args !! "front") = Some front ->
  asString (args !! "back") = Some back ->
  asString (args !! "image_path") = None
  \/ asString (args !! "image_path") = Some EmptyString ->
  asString (args !! "front_audio_path") = None
  \/ asString (args !! "front_audio_path") = Some EmptyString ->
  asString (args !! "back_audio_path") = None
  \/ asString (args !! "back_audio_path") = Some EmptyString ->
  snd (Simple.handleCreateCard a args tr)
  = tr ++ [callOf (ankiClient a) "addNote"
             (PMap {[ "note" := PNote (basicNote deck "Basic" front back (tagsArg args)) ]})].
Proof.
  intros Hd Hf Hb Hi Hfa Hba.
  unfold Simple.handleCreateCard, Simple.storeOptional. rewrite Hd, Hf, Hb.
  destruct Hi as [-> | ->]; destruct Hfa as [-> | ->]; destruct Hba as [-> | ->];
    reflexivity.
Qed.

(** X24. create_card of the reduced surface creates no card when the
    image it is given cannot be read: it returns "Failed to read image
    file: failed to read file <path>: <error>" and sends no request. *)
Theorem simple_unreadable_image
    (a : AnkiMCPServer) (args : gmap string Any) (tr : Trace)
    (deck front back imagePath : string) (err : GoError) :
  asString (args !! "deck") = Some deck ->
  asString (args !! "front") = Some front ->
  asString (args !! "back") = Some back ->
  asString (args !! "image_path") = Some imagePath ->
  imagePath <> EmptyString ->
  os_ReadFile imagePath = Fail err ->
  Simple.handleCreateCard a args tr
  = (Returned (errorResult ("Failed to read image file: failed to read file "
                            +:+ imagePath +:+ ": " +:+ err)) None, tr).
Proof.
  intros Hd Hf Hb Hi Hne Hread. apply String.eqb_neq in Hne.
  unfold Simple.handleCreateCard. rewrite Hd, Hf, Hb.
  unfold Simple.storeOptional at 1. rewrite Hi, Hne.
  unfold fileToBase64. rewrite Hread. reflexivity.
Qed.

(** X27. create_card of the reduced surface, given an image path
    [dir/name] that can be read and stored and no audio: it uploads the
    file under [name], the part after the last slash, and then creates
    the note with the image tag for [name], two line breaks and the front
    text as Front, and the back text unchanged as Back. *)
Theorem simple_card_with_image
    (a : AnkiMCPServer) (args : gmap string Any) (tr : Trace)
    (deck front back dir name : string) (bytes decoded : list Byte.byte)
    (resp : ankiResponse) :
  asString (args !! "deck") = Some deck ->
  asString (args !! "front") = Some front ->
  asString (args !! "back") = Some back ->
  asString (args !! "image_path") = Some (dir +:+ "/" +:+ name) ->
  countByte "/" name = 0%nat ->
  name <> EmptyString ->
  os_ReadFile (dir +:+ "/" +:+ name) = Ok bytes ->
  base64_DecodeString (base64_EncodeToString bytes) = Ok decoded ->
  remote tr (callOf (ankiClient a) "storeMediaFile"
               (PMap {[ "filename" := PString name;
                        "data" := PString (base64_EncodeToString decoded) ]}))
  = Decoded resp ->
  Error resp = EmptyString ->
  asString (args !! "front_audio_path") = None
  \/ asString (args !! "front_audio_path") = Some EmptyString ->
  asString (args !! "back_audio_path") = None
  \/ asString (args !! "back_audio_path") = Some EmptyString ->
  snd (Simple.handleCreateCard a args tr)
  = tr ++ [callOf (ankiClient a) "storeMediaFile"
             (PMap {[ "filename" := PString name;
                      "data" := PString (base64_EncodeToString decoded) ]});
           callOf (ankiClient a) "addNote"
             (PMap {[ "note" := PNote
                  (basicNote deck "Basic"
                     (("<img src=" +:+ doubleQuote +:+ name +:+ doubleQuote +:+ "><br><br>")
                      +:+ front)
                     back (tagsArg args)) ]})].
Proof.
  intros Hd Hf Hb Hi Hslash Hname Hread Hdecode Hstore Herror Hfa Hba.
  assert (Hpath : String.eqb (dir +:+ "/" +:+ name) EmptyString = false)
    by (apply String.eqb_neq; now destruct dir).
  apply String.eqb_neq in Hname.
  assert (Himage : Simple.storeOptional a args "image_path" "image" tr
                   = (inr name,
                      tr ++ [callOf (ankiClient a) "storeMediaFile"
                               (PMap {[ "filename" := PString name;
                                        "data" := PString (base64_EncodeToString decoded) ]})])).
  { unfold Simple.storeOptional, fileToBase64.
    rewrite Hi, Hpath, Hread, (fileNameOf_last dir name Hslash), Hdecode.
    unfold StoreMediaFile, invoke, roundTrip, bind, ret, callOf in *.
    rewrite Hstore, Herror. reflexivity. }
  unfold Simple.handleCreateCard. rewrite Hd, Hf, Hb.
  rewrite bind_run, Himage. cbn [fst snd].
  unfold Simple.storeOptional, Simple.formatContent. rewrite Hname.
  destruct Hfa as [-> | ->]; destruct Hba as [-> | ->];
    cbn [String.eqb]; repeat (rewrite bind_run; cbn [fst snd ret]);
    change (snd (AddNote (ankiClient a) ?n ?t))
      with (t ++ [callOf (ankiClient a) "addNote" (PMap {[ "note" := PNote n ]})]);
    rewrite <- app_assoc; reflexivity.
Qed.

End SimpleSurface.

Lemma file_name_of_path_witness :
  Simple.fileNameOf "/tmp/hola.png" = inr "hola.png".
Proof.
  destruct file_name_of_path as (_ & _ & Hlast).
  apply (Hlast "/tmp" "hola.png"). reflexivity.
Defined.

Lemma simple_plain_card_witness :
  snd (@Simple.handleCreateCard _ Examples.accepting Examples.server
         {[ "deck" := VString "Spanish"; "front" := VString "Hola";
            "back" := VString "Hello"; "image_path" := VString EmptyString ]} [])
  = [callOf NewAnkiConnect "addNote"
       (PMap {[ "note" := PNote (basicNote "Spanish" "Basic" "Hola" "Hello" []) ]})].
Proof.
  pose proof (@simple_plain_card _ Examples.accepting Examples.server
                {[ "deck" := VString "Spanish"; "front" := VString "Hola";
                   "back" := VString "Hello"; "image_path" := VString EmptyString ]} []
                "Spanish" "Hola" "Hello") as Hplain.
  rewrite Hplain; [reflexivity | reflexivity | reflexivity | reflexivity
                   | right; reflexivity | left; reflexivity | left; reflexivity].
Defined.

Lemma simple_unreadable_image_witness :
  @Simple.handleCreateCard _ Inputs.onDisk Examples.server
    {[ "deck" := VString "Spanish"; "front" := VString "Hola";
       "back" := VString "Hello"; "image_path" := VString "/tmp" ]} []
  = (Returned (errorResult
                 "Failed to read image file: failed to read file /tmp: read /tmp: is a directory")
       None, []).
Proof.
  apply (@simple_unreadable_image _ Inputs.onDisk Examples.server
           {[ "deck" := VString "Spanish"; "front" := VString "Hola";
              "back" := VString "Hello"; "image_path" := VString "/tmp" ]} []
           "Spanish" "Hola" "Hello" "/tmp" "read /tmp: is a directory");
    first [reflexivity | discriminate].
Defined.

(** ** How many requests a tool sends *)

Ltac at_most_one_call :=
  intros; unfold_client; cbn [fst snd]; split_cases;
  first [ exists []; split; [now rewrite app_nil_r | cbn; lia]
        | eexists [_]; split; [reflexivity | cbn; lia] ].

Section RequestCounts.
Context `{World}.

Lemma storeOptional_calls
    (a : AnkiMCPServer) (args : gmap string Any) (key what : string) (tr : Trace) :
  exists calls,
    snd (Simple.storeOptional a args key what tr) = tr ++ calls
    /\ (length calls <= 1)%nat /\ Forall isUpload calls.
Proof.
  unfold Simple.storeOptional.
  destruct (asString (args !! key)) as [path|];
    [|exists []; split; [now rewrite app_nil_r | split; [cbn; lia | constructor]]].
  destruct (String.eqb path EmptyString);
    [exists []; split; [now rewrite app_nil_r | split; [cbn; lia | constructor]]|].
  destruct (fileToBase64 path) as [mediaData|err];
    [|exists []; split; [now rewrite app_nil_r | split; [cbn; lia | constructor]]].
  destruct (Simple.fileNameOf path) as [p|name];
    [exists []; split; [now rewrite app_nil_r | split; [cbn; lia | constructor]]|].
  destruct (base64_DecodeString mediaData) as [decodedData|err];
    [|exists []; split; [now rewrite app_nil_r | split; [cbn; lia | constructor]]].
  eexists [_]. split; [reflexivity|]. split; [cbn; lia|].
  constructor; [reflexivity | constructor].
Qed.

(** X25. Every handler but the search and the create_card of the reduced
    surface sends at most one request per call and leaves the earlier
    calls in place; the search sends none (no query), one ([findNotes])
    or two ([findNotes], then [notesInfo]), never more and never in
    another order. *)
Theorem request_counts :
  Forall (fun h : Handler =>
            forall a args tr,
            exists calls, snd (h a args tr) = tr ++ calls /\ (length calls <= 1)%nat)
         singleRequestHandlers
  /\ (forall a args tr,
        exists calls,
          snd (handleSearchCards a args tr) = tr ++ calls
          /\ (actionsOf calls = []
              \/ actionsOf calls = ["findNotes"]
              \/ actionsOf calls = ["findNotes"; "notesInfo"])).
Proof.
  split.
  - unfold singleRequestHandlers.
    repeat match goal with |- Forall _ _ => constructor end.
    + unfold handleCreateCard. at_most_one_call.
    + unfold handleListDecks. at_most_one_call.
    + unfold handleCreateDeck. at_most_one_call.
    + unfold handleGetModels. at_most_one_call.
    + unfold handleGetModelFields. at_most_one_call.
    + unfold handleSync. at_most_one_call.
    + unfold handlePing. at_most_one_call.
    + unfold Inline.handleAddMedia. at_most_one_call.
    + unfold Inline.handleCreateCardWithMedia. at_most_one_call.
    + unfold Resolving.handleAddMedia. at_most_one_call.
    + unfold Resolving.handleCreateCardWithMedia. at_most_one_call.
    + unfold Simple.handleListDecks. at_most_one_call.
    + unfold Simple.handleCreateDeck. at_most_one_call.
  - intros a args tr. unfold handleSearchCards.
    destruct (asString (args !! "query")) as [query|];
      [|exists []; split; [now rewrite app_nil_r | now left]].
    rewrite bind_run.
    assert (Hfind : snd (FindNotes (ankiClient a) query tr)
                    = tr ++ [callOf (ankiClient a) "findNotes"
                               (PStringMap {[ "query" := query ]})]) by reflexivity.
    destruct (fst (FindNotes (ankiClient a) query tr)) as [noteIDs|err];
      [|eexists [_]; split; [exact Hfind | now right; left]].
    destruct (Z.of_nat (length noteIDs) =? 0);
      [eexists [_]; split; [exact Hfind | now right; left]|].
    rewrite bind_run. cbn [snd ret]. rewrite Hfind.
    exists [callOf (ankiClient a) "findNotes" (PStringMap {[ "query" := query ]});
            callOf (ankiClient a) "notesInfo"
              (PMap {[ "notes" := PInt64s (truncateIDs noteIDs (limitArg args)) ]})].
    split; [|now right; right].
    change (tr ++ [?c1; ?c2]) with (tr ++ [c1] ++ [c2]). rewrite app_assoc. reflexivity.
Qed.

(** X26. create_card of the reduced surface first uploads the media it
    was given, at most three files, and only then, if at all, creates the
    note: the requests it adds are uploads followed by at most one
    [addNote], which is the last request. *)
Theorem simple_card_call_order
    (a : AnkiMCPServer) (args : gmap string Any) (tr : Trace) :
  exists uploads,
    (length uploads <= 3)%nat
    /\ Forall isUpload uploads
    /\ (snd (Simple.handleCreateCard a args tr) = tr ++ uploads
        \/ exists note,
             snd (Simple.handleCreateCard a args tr)
             = tr ++ uploads
                  ++ [callOf (ankiClient a) "addNote" (PMap {[ "note" := PNote note ]})]).
Proof.
  assert (Hnothing : exists uploads : Trace,
             (length uploads <= 3)%nat /\ Forall isUpload uploads
             /\ (tr = tr ++ uploads
                 \/ exists note : Note,
                      tr = tr ++ uploads
                           ++ [callOf (ankiClient a) "addNote"
                                 (PMap {[ "note" := PNote note ]})])).
  { exists []. split; [cbn; lia|]. split; [constructor|]. left. now rewrite app_nil_r. }
  unfold Simple.handleCreateCard.
  destruct (asString (args !! "deck")) as [deck|]; [|exact Hnothing].
  destruct (asString (args !! "front")) as [front|]; [|exact Hnothing].
  destruct (asString (args !! "back")) as [back|]; [|exact Hnothing].
  clear Hnothing. rewrite bind_run.
  destruct (storeOptional_calls a args "image_path" "image" tr) as (c1 & -> & Hn1 & Hu1).
  destruct (fst (Simple.storeOptional a args "image_path" "image" tr)) as [out|imageName].
  { exists c1. split; [lia|]. split; [exact Hu1|]. now left. }
  rewrite bind_run.
  destruct (storeOptional_calls a args "front_audio_path" "front audio" (tr ++ c1))
    as (c2 & -> & Hn2 & Hu2).
  destruct (fst (Simple.storeOptional a args "front_audio_path" "front audio" (tr ++ c1)))
    as [out|frontAudioName].
  { exists (c1 ++ c2). split; [rewrite length_app; lia|].
    split; [now apply Forall_app_2|]. left. cbn [snd ret]. now rewrite <- app_assoc. }
  rewrite bind_run.
  destruct (storeOptional_calls a args "back_audio_path" "back audio" ((tr ++ c1) ++ c2))
    as (c3 & -> & Hn3 & Hu3).
  destruct (fst (Simple.storeOptional a args "back_audio_path" "back audio"
                   ((tr ++ c1) ++ c2))) as [out|backAudioName].
  { exists (c1 ++ c2 ++ c3). split; [rewrite !length_app; lia|].
    split; [repeat apply Forall_app_2; assumption|]. left. cbn [snd ret].
    now rewrite <- !app_assoc. }
  exists (c1 ++ c2 ++ c3). split; [rewrite !length_app; lia|].
  split; [repeat apply Forall_app_2; assumption|]. right. eexists.
  rewrite bind_run. cbn [snd ret].
  change (snd (AddNote (ankiClient a) ?n ?t)) with (t ++ [callOf (ankiClient a) "addNote"
                                                           (PMap {[ "note" := PNote n ]})]).
  now rewrite <- !app_assoc.
Qed.

End RequestCounts.

Lemma request_counts_witness :
  exists calls,
    snd (@handlePing _ Examples.failing Examples.server ∅ []) = [] ++ calls
    /\ (length calls <= 1)%nat.
Proof.
  destruct (@request_counts _ Examples.failing) as [Hsingle _].
  exact (Forall_inv (Forall_inv_tail (Forall_inv_tail (Forall_inv_tail (Forall_inv_tail
           (Forall_inv_tail (Forall_inv_tail Hsingle))))))
           Examples.server ∅ []).
Defined.

Lemma simple_card_call_order_witness :
  exists uploads,
    (length uploads <= 3)%nat
    /\ Forall isUpload uploads
    /\ (snd (@Simple.handleCreateCard _ Inputs.onDisk Examples.server
               {[ "deck" := VString "Spanish"; "front" := VString "Hola";
                  "back" := VString "Hello"; "image_path" := VString "/tmp/hola.png" ]} [])
        = [] ++ uploads
        \/ exists note,
             snd (@Simple.handleCreateCard _ Inputs.onDisk Examples.server
                    {[ "deck" := VString "Spanish"; "front" := VString "Hola";
                       "back" := VString "Hello";
                       "image_path" := VString "/tmp/hola.png" ]} [])
             = [] ++ uploads
                  ++ [callOf (ankiClient Examples.server) "addNote"
                        (PMap {[ "note" := PNote note ]})]).
Proof.
  exact (@simple_card_call_order _ Inputs.onDisk Examples.server
           {[ "deck" := VString "Spanish"; "front" := VString "Hola";
              "back" := VString "Hello"; "image_path" := VString "/tmp/hola.png" ]} []).
Defined.

Lemma simple_card_with_image_witness :
  snd (@Simple.handleCreateCard _ Inputs.onDisk Examples.server
         {[ "deck" := VString "Spanish"; "front" := VString "Hola";
            "back" := VString "Hello"; "image_path" := VString "/tmp/hola.png" ]} [])
  = [callOf NewAnkiConnect "storeMediaFile"
       (PMap {[ "filename" := PString "hola.png"; "data" := PString "UE5H" ]});
     callOf NewAnkiConnect "addNote"
       (PMap {[ "note" := PNote
            (basicNote "Spanish" "Basic"
               ("<img src=" +:+ doubleQuote +:+ "hola.png" +:+ doubleQuote
                +:+ "><br><br>Hola")
               "Hello" []) ]})].
Proof.
  pose proof (@simple_card_with_image _ Inputs.onDisk Examples.server
                {[ "deck" := VString "Spanish"; "front" := VString "Hola";
                   "back" := VString "Hello"; "image_path" := VString "/tmp/hola.png" ]} []
                "Spanish" "Hola" "Hello" "/tmp" "hola.png"
                [Byte.x50; Byte.x4e; Byte.x47] [Byte.x50; Byte.x4e; Byte.x47]
                {| Result := VNil; Error := EmptyString |}) as Himage.
  rewrite Himage;
    [reflexivity | reflexivity | reflexivity | reflexivity | reflexivity | reflexivity
     | discriminate | reflexivity | reflexivity | reflexivity | reflexivity
     | left; reflexivity | left; reflexivity].
Defined.
